(** * Morgan: priority scoring and model routing

    A shallow embedding of the decision logic of [priority_engine.py]
    (class [PriorityCalculator]) and [ai_engine.py] (classes
    [AIModelRouter], [OpenAIClient], [ClaudeClient]) over the data model of
    [models.py], followed by the properties proved about it.

    Conventions of the embedding:
    - a Python [float] is an IEEE 754 binary64 value, computed with the
      operations of [SpecFloat] at precision 53;
    - a Python [str] is the list of its Unicode code points;
    - a naive [datetime] is its number of microseconds since
      0001-01-01T00:00:00;
    - code that can raise returns a [result];
    - the wall clock, the provider replies, the process environment,
      [str.lower] and [json.loads] are explicit parameters. *)

From Stdlib Require Import ZArith List Bool String Ascii Lia.
From Stdlib Require Import SpecFloat DecimalZ DecimalString Sorted Permutation.
Import ListNotations.
Open Scope Z_scope.

(** ** Python floats *)

Module Float.

Definition prec : Z := 53.
Definition emax : Z := 1024.

Definition float : Set := spec_float.

Definition add : float -> float -> float := SFadd prec emax.
Definition sub : float -> float -> float := SFsub prec emax.
Definition mul : float -> float -> float := SFmul prec emax.
Definition div : float -> float -> float := SFdiv prec emax.
Definition opp : float -> float := SFopp.
Definition ltb : float -> float -> bool := SFltb.
Definition leb : float -> float -> bool := SFleb.
Definition eqb : float -> float -> bool := SFeqb.

(** [float(z)] for an integer [z], rounded to nearest even. *)
Definition of_int (z : Z) : float := binary_normalize prec emax z 0 false.

(** A decimal literal [i.f] denotes the binary64 value nearest to the
    rational it spells; that value is the correctly rounded quotient of
    the two integers [i * 10^k + f] and [10^k], both exact below 2^53. *)
Definition of_decimal (d : Decimal.decimal) : option float :=
  match d with
  | Decimal.Decimal (Decimal.Pos i) f =>
      let k := Z.of_nat (Decimal.nb_digits f) in
      Some (div (of_int (Z.of_uint i * 10 ^ k + Z.of_uint f)) (of_int (10 ^ k)))
  | _ => None
  end.

Definition parse (n : Number.number) : option float :=
  match n with
  | Number.Decimal d => of_decimal d
  | _ => None
  end.

Definition print (x : float) : option Number.number := None.

Declare Scope float_scope.
Delimit Scope float_scope with flt.
Bind Scope float_scope with float spec_float.
Number Notation spec_float parse print : float_scope.

Infix "+" := add : float_scope.
Infix "-" := sub : float_scope.
Infix "*" := mul : float_scope.
Infix "/" := div : float_scope.
Infix "<?" := ltb : float_scope.
Infix "<=?" := leb : float_scope.

(** The two-argument builtins [min(a, b)] and [max(a, b)]: the first
    argument is kept unless the second compares strictly below (above)
    it, so a NaN in second position is never chosen. *)
Definition min (a b : float) : float := if ltb b a then b else a.
Definition max (a b : float) : float := if ltb a b then b else a.

(** [max(0.0, min(1.0, x))] *)
Definition clamp01 (x : float) : float := max 0.0 (min 1.0 x).

(** [0 <= x <= 1], as the [ge=0, le=1] field constraints test it. *)
Definition in_unit (x : float) : bool := leb 0.0 x && leb x 1.0.

Definition is_zero (x : float) : bool :=
  match x with S754_zero _ => true | _ => false end.

End Float.

Import Float.
Open Scope float_scope.
Open Scope Z_scope.

(** ** Python strings *)

Module Text.

Definition char : Set := N.
Definition str : Set := list char.

(** An ASCII literal of the source. *)
Definition lit (s : string) : str :=
  map N_of_ascii (list_ascii_of_string s).

Definition len (t : str) : Z := Z.of_nat (List.length t).

Fixpoint str_eqb (a b : str) : bool :=
  match a, b with
  | [], [] => true
  | x :: a', y :: b' => N.eqb x y && str_eqb a' b'
  | _, _ => false
  end.

Fixpoint startswith (p t : str) : bool :=
  match p, t with
  | [], _ => true
  | _ :: _, [] => false
  | x :: p', y :: t' => N.eqb x y && startswith p' t'
  end.

(** [needle in hay] *)
Fixpoint contains (needle hay : str) : bool :=
  startswith needle hay ||
  match hay with
  | [] => false
  | _ :: hay' => contains needle hay'
  end.

(** [any(k in t for k in ks)] *)
Definition any_in (ks : list str) (t : str) : bool :=
  existsb (fun k => contains k t) ks.

(** [x in xs] for a list of strings [xs] *)
Definition mem (x : str) (xs : list str) : bool :=
  existsb (str_eqb x) xs.

(** [str.lower] restricted to ASCII letters; it agrees with Python on
    every text whose cased characters are all ASCII, and is the instance
    at which the concrete examples below are evaluated. *)
Definition ascii_lower_char (c : char) : char :=
  if (N.leb 65 c && N.leb c 90)%bool then (c + 32)%N else c.
Definition ascii_lower (t : str) : str := map ascii_lower_char t.

End Text.

Import Text.

(** ** Exceptions *)

Inductive exn : Set :=
| KeyError (key : string)
| ZeroDivisionError
| ValueError
| ValidationError
| IndexError
| AttributeError
| JSONDecodeError
| ProviderError.

Inductive result (A : Type) : Type :=
| Ok (a : A)
| Raise (e : exn).

Arguments Ok {A} a.
Arguments Raise {A} e.

Definition bind {A B : Type} (m : result A) (k : A -> result B) : result B :=
  match m with
  | Ok a => k a
  | Raise e => Raise e
  end.

Notation "x <- m ;; k" := (bind m (fun x => k))
  (at level 61, m at next level, right associativity).

(** [try: body except Exception: handler] *)
Definition try_except {A : Type} (body : result A) (handler : exn -> result A)
  : result A :=
  match body with
  | Ok a => Ok a
  | Raise e => handler e
  end.

(** ** Dictionaries with string keys, in insertion order *)

Module Dict.

Definition dict (V : Type) : Type := list (string * V).

Fixpoint getitem {V : Type} (d : dict V) (k : string) : result V :=
  match d with
  | [] => Raise (KeyError k)
  | (k', v) :: d' => if String.eqb k k' then Ok v else getitem d' k
  end.

Fixpoint setitem {V : Type} (d : dict V) (k : string) (v : V) : dict V :=
  match d with
  | [] => [(k, v)]
  | (k', v') :: d' =>
      if String.eqb k k' then (k', v) :: d' else (k', v') :: setitem d' k v
  end.

Definition values {V : Type} (d : dict V) : list V := map snd d.

End Dict.

(** ** Naive datetimes *)

Module Datetime.

(** Microseconds since 0001-01-01T00:00:00, a Monday. *)
Definition datetime : Set := Z.

Definition us_per_second : Z := 1000000.
Definition us_per_hour : Z := 3600 * us_per_second.
Definition us_per_day : Z := 24 * us_per_hour.

Definition hour (t : datetime) : Z := (t / us_per_hour) mod 24.

(** [datetime.weekday()]: Monday is 0, Sunday is 6. *)
Definition weekday (t : datetime) : Z := (t / us_per_day) mod 7.

(** [(a - b).total_seconds()]: the microsecond count divided by 10^6. *)
Definition total_seconds (a b : datetime) : float :=
  of_int (a - b) / of_int us_per_second.

(** A day count (0 is 0001-01-01) and a time of day. *)
Definition at_time (day h m s : Z) : datetime :=
  day * us_per_day + h * us_per_hour + (m * 60 + s) * us_per_second.

End Datetime.

Import Datetime.

(** ** Data model ([models.py])

    The [default_factory] timestamps ([created_at], [analysis_timestamp],
    [calculated_at], [last_updated]) only record when an object was built
    and are read by none of the functions below; the records leave them
    out. *)

Inductive Priority : Set := URGENT | HIGH | MEDIUM | LOW.

Inductive ActivityType : Set := MENTION | DM | THREAD_REPLY | CHANNEL_MESSAGE.

Definition ActivityType_value (a : ActivityType) : str :=
  match a with
  | MENTION => lit "mention"
  | DM => lit "dm"
  | THREAD_REPLY => lit "thread_reply"
  | CHANNEL_MESSAGE => lit "channel"
  end.

Inductive WorkType : Set := MEETING | REVIEW | INFO | DECISION | SUPPORT | OTHER.

Definition WorkType_value (w : WorkType) : str :=
  match w with
  | MEETING => lit "meeting"
  | REVIEW => lit "review"
  | INFO => lit "info"
  | DECISION => lit "decision"
  | SUPPORT => lit "support"
  | OTHER => lit "other"
  end.

Definition WorkType_members : list WorkType :=
  [MEETING; REVIEW; INFO; DECISION; SUPPORT; OTHER].

(** [WorkType(v)]: the member whose value is [v], else [ValueError]. *)
Definition WorkType_of_value (v : str) : result WorkType :=
  match find (fun w => str_eqb v (WorkType_value w)) WorkType_members with
  | Some w => Ok w
  | None => Raise ValueError
  end.

Record SlackMessage : Set := {
  message_id : str;
  channel_id : str;
  channel_name : str;
  user_id : str;
  username : str;
  text : str;
  timestamp : datetime;
  permalink : str;
  activity_type : ActivityType;
  thread_ts : option str;
  is_bot : bool;
  mentions_me : bool
}.

Record AIAnalysis : Set := {
  action_required : bool;
  urgency_score : float;
  complexity : str;
  work_type : WorkType;
  emotional_tone : str;
  estimated_time_minutes : Z;
  confidence : float;
  reasoning : str;
  detected_keywords : list str;
  model_used : str
}.

(** The field constraints of [AIAnalysis]: [urgency_score] and
    [confidence] are [ge=0, le=1], [estimated_time_minutes] is [ge=0]. *)
Definition AIAnalysis_valid (a : AIAnalysis) : bool :=
  in_unit (urgency_score a) && in_unit (confidence a) &&
  (0 <=? estimated_time_minutes a).

(** The constructor call [AIAnalysis(...)], which validates. *)
Definition AIAnalysis_new (a : AIAnalysis) : result AIAnalysis :=
  if AIAnalysis_valid a then Ok a else Raise ValidationError.

(** The recommended-action-time labels and the factor names are Korean
    display strings in the source; they are kept as tags. *)
Inductive ActionTime : Set :=
| WithinThirtyMinutes
| TodayFocusBlock
| TodayWithinHours
| ThisWeek
| WhenConvenient.

Inductive Factor : Set :=
| SenderAuthority
| TimeUrgency
| ContentImportance
| PersonalPattern.

(** One entry of the [reasons] list of [_generate_reasoning], before it is
    formatted and joined with [" | "]. *)
Inductive Reason : Set :=
| IsHigh (f : Factor) (score : float)
| AlsoConsidered (f : Factor) (score : float)
| GeneralPriority.

Record PriorityScore : Set := {
  final_score : float;
  priority_level : Priority;
  sender_authority_score : float;
  time_urgency_score : float;
  content_importance_score : float;
  personal_weight_score : float;
  recommended_action_time : ActionTime;
  score_reasoning : list Reason
}.

(** The five score fields of [PriorityScore] are [ge=0, le=1]. *)
Definition PriorityScore_valid (p : PriorityScore) : bool :=
  in_unit (final_score p) &&
  in_unit (sender_authority_score p) &&
  in_unit (time_urgency_score p) &&
  in_unit (content_importance_score p) &&
  in_unit (personal_weight_score p).

Definition PriorityScore_new (p : PriorityScore) : result PriorityScore :=
  if PriorityScore_valid p then Ok p else Raise ValidationError.

Record UserPattern : Set := {
  pattern_type : str;
  pattern_value : str;
  weight_adjustment : float;
  pattern_confidence : float;
  usage_count : Z
}.

(** ** The priority calculator ([priority_engine.py]) *)

Record WorkingHours : Set := {
  wh_start : Z;
  wh_end : Z;
  wh_timezone : string
}.

(** The attributes of a [PriorityCalculator] instance. *)
Record PriorityCalculator : Type := {
  default_weights : Dict.dict float;
  role_authority_scores : Dict.dict float;
  user_patterns : list UserPattern;
  working_hours : WorkingHours
}.

Definition set_user_patterns (self : PriorityCalculator)
    (ps : list UserPattern) : PriorityCalculator :=
  {| default_weights := default_weights self;
     role_authority_scores := role_authority_scores self;
     user_patterns := ps;
     working_hours := working_hours self |}.

(** [PriorityCalculator.__init__] *)
Definition PriorityCalculator_init : PriorityCalculator :=
  {| default_weights :=
       [("sender_authority", 0.3%flt); ("time_urgency", 0.2%flt);
        ("content_importance", 0.3%flt); ("personal_patterns", 0.2%flt)]%string;
     role_authority_scores :=
       [("ceo", 0.95%flt); ("manager", 0.8%flt); ("team_lead", 0.7%flt);
        ("colleague", 0.5%flt); ("junior", 0.3%flt); ("bot", 0.1%flt);
        ("external", 0.6%flt); ("unknown", 0.4%flt)]%string;
     user_patterns := [];
     working_hours := {| wh_start := 9; wh_end := 18; wh_timezone := "local" |} |}.

(** [a / b] on floats, which raises on a zero divisor. *)
Definition py_div (a b : float) : result float :=
  if is_zero b then Raise ZeroDivisionError else Ok (a / b)%flt.

(** [sum(xs)] on floats, as Python up to 3.11 computes it: a left fold
    from the integer [0]. *)
Definition py_sum (xs : list float) : float :=
  fold_left add xs (of_int 0).

(** [for x in xs: s = body(x, s)], stopping at the first exception. *)
Fixpoint for_each {A S : Type} (xs : list A) (s : S)
    (body : A -> S -> result S) : result S :=
  match xs with
  | [] => Ok s
  | x :: xs' => s' <- body x s ;; for_each xs' s' body
  end.

(** [sorted(items, key=lambda x: x[1], reverse=True)]: stable, descending. *)
Fixpoint insert_desc {A : Type} (x : A * float) (l : list (A * float))
  : list (A * float) :=
  match l with
  | [] => [x]
  | y :: l' =>
      if (snd y <? snd x)%flt then x :: y :: l' else y :: insert_desc x l'
  end.

Definition sorted_desc {A : Type} (l : list (A * float)) : list (A * float) :=
  fold_left (fun acc x => insert_desc x acc) l [].

Section PriorityEngine.

(** [str.lower] *)
Variable lower : str -> str.

Definition _calculate_sender_authority_score
    (self : PriorityCalculator) (message : SlackMessage) : float :=
  let base_score := 0.5%flt in
  let kind := ActivityType_value (activity_type message) in
  let base_score :=
    if str_eqb kind (lit "dm") then (base_score + 0.2)%flt
    else if str_eqb kind (lit "mention") then (base_score + 0.3)%flt
    else if str_eqb kind (lit "thread_reply") then (base_score + 0.1)%flt
    else base_score in
  let channel_name := lower (channel_name message) in
  let base_score :=
    if any_in [lit "exec"; lit "leadership"; lit "board"] channel_name
    then (base_score + 0.3)%flt
    else if any_in [lit "urgent"; lit "critical"; lit "alert"] channel_name
    then (base_score + 0.25)%flt
    else if any_in [lit "general"; lit "random"; lit "off-topic"] channel_name
    then (base_score - 0.1)%flt
    else base_score in
  let hour := hour (timestamp message) in
  let base_score :=
    if (hour <? wh_start (working_hours self)) ||
       (wh_end (working_hours self) <? hour)
    then (base_score + 0.1)%flt
    else base_score in
  clamp01 base_score.

(** [now] is the value [datetime.now()] returns during the call. *)
Definition _calculate_time_urgency_score
    (message : SlackMessage) (ai_analysis : AIAnalysis) (now : datetime)
  : float :=
  let base_score := urgency_score ai_analysis in
  let age_hours :=
    (total_seconds now (timestamp message) / of_int 3600)%flt in
  let base_score :=
    if (age_hours <? of_int 1)%flt then (base_score + 0.2)%flt
    else if (of_int 24 <? age_hours)%flt then (base_score - 0.2)%flt
    else base_score in
  let weekday := weekday (timestamp message) in
  let base_score :=
    if 5 <=? weekday then (base_score - 0.1)%flt
    else if weekday =? 0 then (base_score + 0.1)%flt
    else base_score in
  let hour := hour (timestamp message) in
  let base_score :=
    if (9 <=? hour) && (hour <=? 17) then (base_score + 0.1)%flt
    else if (22 <=? hour) || (hour <=? 6) then (base_score + 0.2)%flt
    else base_score in
  clamp01 base_score.

Definition high_priority_keywords : list str :=
  [lit "urgent"; lit "asap"; lit "immediately"; lit "critical";
   lit "emergency"; lit "deadline"; lit "board"; lit "client";
   lit "customer"; lit "revenue"; lit "budget"].

Definition _calculate_content_importance_score
    (message : SlackMessage) (ai_analysis : AIAnalysis) : float :=
  let base_score := 0.5%flt in
  let base_score :=
    if action_required ai_analysis then (base_score + 0.3)%flt
    else base_score in
  let kind := WorkType_value (work_type ai_analysis) in
  let base_score :=
    if mem kind [lit "decision"; lit "meeting"; lit "review"]
    then (base_score + 0.2)%flt
    else if mem kind [lit "info"; lit "support"]
    then (base_score + 0.1)%flt
    else base_score in
  let base_score :=
    if str_eqb (complexity ai_analysis) (lit "complex")
    then (base_score + 0.15)%flt
    else if str_eqb (complexity ai_analysis) (lit "simple")
    then (base_score - 0.05)%flt
    else base_score in
  let base_score :=
    if str_eqb (emotional_tone ai_analysis) (lit "urgent")
    then (base_score + 0.2)%flt
    else if str_eqb (emotional_tone ai_analysis) (lit "frustrated")
    then (base_score + 0.15)%flt
    else if str_eqb (emotional_tone ai_analysis) (lit "encouraging")
    then (base_score + 0.05)%flt
    else base_score in
  let text_length := len (text message) in
  let base_score :=
    if 500 <? text_length then (base_score + 0.1)%flt
    else if text_length <? 20 then (base_score + 0.05)%flt
    else base_score in
  let text_lower := lower (text message) in
  let keyword_count :=
    Z.of_nat (List.length
      (filter (fun keyword => contains keyword text_lower)
              high_priority_keywords)) in
  let base_score :=
    (base_score + min 0.2 (of_int keyword_count * 0.05))%flt in
  clamp01 base_score.

Definition _pattern_matches (pattern : UserPattern)
    (message : SlackMessage) (ai_analysis : AIAnalysis) : bool :=
  let pattern_type := pattern_type pattern in
  let pattern_value := lower (pattern_value pattern) in
  if str_eqb pattern_type (lit "sender") then
    contains pattern_value (lower (username message))
  else if str_eqb pattern_type (lit "channel") then
    contains pattern_value (lower (channel_name message))
  else if str_eqb pattern_type (lit "keyword") then
    contains pattern_value (lower (text message))
  else if str_eqb pattern_type (lit "work_type") then
    str_eqb pattern_value (WorkType_value (work_type ai_analysis))
  else if str_eqb pattern_type (lit "time") then
    let hour := hour (timestamp message) in
    if str_eqb pattern_value (lit "morning") && (6 <=? hour) && (hour <? 12)
    then true
    else if str_eqb pattern_value (lit "afternoon") && (12 <=? hour) && (hour <? 18)
    then true
    else if str_eqb pattern_value (lit "evening") && (18 <=? hour) && (hour <? 22)
    then true
    else false
  else false.

Definition _apply_personal_patterns (self : PriorityCalculator)
    (message : SlackMessage) (ai_analysis : AIAnalysis) : float :=
  let base_score := 0.5%flt in
  let base_score :=
    fold_left
      (fun base_score pattern =>
         if _pattern_matches pattern message ai_analysis then
           let adjustment :=
             (weight_adjustment pattern * pattern_confidence pattern)%flt in
           (base_score + adjustment)%flt
         else base_score)
      (user_patterns self) base_score in
  clamp01 base_score.

(** [weights[key] += delta] *)
Definition add_to (weights : Dict.dict float) (key : string) (delta : float)
  : result (Dict.dict float) :=
  w <- Dict.getitem weights key ;;
  Ok (Dict.setitem weights key (w + delta)%flt).

Definition _get_adjusted_weights (self : PriorityCalculator)
    (message : SlackMessage) : result (Dict.dict float) :=
  let weights := default_weights self in
  let kind := ActivityType_value (activity_type message) in
  weights <-
    (if str_eqb kind (lit "dm") then
       weights <- add_to weights "sender_authority" 0.1 ;;
       add_to weights "time_urgency" 0.05
     else if str_eqb kind (lit "mention") then
       add_to weights "content_importance" 0.1
     else if str_eqb kind (lit "channel") then
       add_to weights "personal_patterns" 0.1
     else Ok weights) ;;
  let total := py_sum (Dict.values weights) in
  for_each (map fst weights) weights
    (fun key weights =>
       w <- Dict.getitem weights key ;;
       q <- py_div w total ;;
       Ok (Dict.setitem weights key q)).

Definition _score_to_priority (score : float) : Priority :=
  if (0.8 <=? score)%flt then URGENT
  else if (0.6 <=? score)%flt then HIGH
  else if (0.4 <=? score)%flt then MEDIUM
  else LOW.

Definition _suggest_action_time (score : float) (message : SlackMessage)
    (ai_analysis : AIAnalysis) : ActionTime :=
  if (0.8 <=? score)%flt then WithinThirtyMinutes
  else if (0.6 <=? score)%flt then
    if 30 <? estimated_time_minutes ai_analysis then TodayFocusBlock
    else TodayWithinHours
  else if (0.4 <=? score)%flt then ThisWeek
  else WhenConvenient.

Definition _generate_reasoning
    (sender_score time_score content_score personal_score : float)
    (weights : Dict.dict float) : result (list Reason) :=
  let scores :=
    [(SenderAuthority, sender_score); (TimeUrgency, time_score);
     (ContentImportance, content_score); (PersonalPattern, personal_score)] in
  let sorted_scores := sorted_desc scores in
  match sorted_scores with
  | (top_factor, top_score) :: (second_factor, second_score) :: _ =>
      let reasons := [] in
      let reasons :=
        if (0.7 <? top_score)%flt
        then reasons ++ [IsHigh top_factor top_score] else reasons in
      let reasons :=
        if (0.6 <? second_score)%flt
        then reasons ++ [AlsoConsidered second_factor second_score]
        else reasons in
      let reasons :=
        match reasons with
        | [] => [GeneralPriority]
        | _ => reasons
        end in
      Ok reasons
  | _ => Raise IndexError
  end.

(** The body of [calculate_priority] after the assignment to
    [self.user_patterns]. *)
Definition score_message (self : PriorityCalculator)
    (message : SlackMessage) (ai_analysis : AIAnalysis) (now : datetime)
  : result PriorityScore :=
  let sender_score := _calculate_sender_authority_score self message in
  let time_score := _calculate_time_urgency_score message ai_analysis now in
  let content_score := _calculate_content_importance_score message ai_analysis in
  let personal_score := _apply_personal_patterns self message ai_analysis in
  weights <- _get_adjusted_weights self message ;;
  w_sender <- Dict.getitem weights "sender_authority" ;;
  w_time <- Dict.getitem weights "time_urgency" ;;
  w_content <- Dict.getitem weights "content_importance" ;;
  w_personal <- Dict.getitem weights "personal_patterns" ;;
  let final_score :=
    (sender_score * w_sender + time_score * w_time +
     content_score * w_content + personal_score * w_personal)%flt in
  let final_score := clamp01 final_score in
  let priority_level := _score_to_priority final_score in
  let action_time := _suggest_action_time final_score message ai_analysis in
  reasoning <-
    _generate_reasoning sender_score time_score content_score personal_score
      weights ;;
  PriorityScore_new
    {| final_score := final_score;
       priority_level := priority_level;
       sender_authority_score := sender_score;
       time_urgency_score := time_score;
       content_importance_score := content_score;
       personal_weight_score := personal_score;
       recommended_action_time := action_time;
       score_reasoning := reasoning |}.

(** [calculate_priority] returns its result, or the exception it raised,
    together with the calculator as the call leaves it. *)
Definition calculate_priority (self : PriorityCalculator)
    (message : SlackMessage) (ai_analysis : AIAnalysis)
    (user_patterns : option (list UserPattern)) (now : datetime)
  : result PriorityScore * PriorityCalculator :=
  let self :=
    match user_patterns with
    | Some (p :: ps) => set_user_patterns self (p :: ps)
    | _ => self
    end in
  (score_message self message ai_analysis now, self).

(** [clock i] is what [datetime.now()] returns in the [i]-th iteration. *)
Fixpoint batch_loop (self : PriorityCalculator)
    (items : list (SlackMessage * AIAnalysis))
    (user_patterns : option (list UserPattern))
    (clock : nat -> datetime) (i : nat) (priorities : list PriorityScore)
  : result (list PriorityScore) * PriorityCalculator :=
  match items with
  | [] => (Ok priorities, self)
  | (message, analysis) :: items' =>
      match calculate_priority self message analysis user_patterns (clock i) with
      | (Ok priority, self') =>
          batch_loop self' items' user_patterns clock (S i)
            (priorities ++ [priority])
      | (Raise e, self') => (Raise e, self')
      end
  end.

Definition batch_calculate_priorities (self : PriorityCalculator)
    (messages_with_analysis : list (SlackMessage * AIAnalysis))
    (user_patterns : option (list UserPattern)) (clock : nat -> datetime)
  : result (list PriorityScore) * PriorityCalculator :=
  let priorities := [] in
  let self :=
    match user_patterns with
    | Some (p :: ps) => set_user_patterns self (p :: ps)
    | _ => self
    end in
  batch_loop self messages_with_analysis user_patterns clock 0%nat priorities.

End PriorityEngine.

(** ** Routing and analysis adapters ([ai_engine.py]) *)

Record AIModelRouter : Set := {
  simple_threshold : Z;
  complex_indicators : list str
}.

(** [AIModelRouter.__init__] *)
Definition AIModelRouter_init : AIModelRouter :=
  {| simple_threshold := 50;
     complex_indicators :=
       [lit "project"; lit "budget"; lit "deadline"; lit "meeting";
        lit "review"; lit "approval"; lit "decision"; lit "strategy";
        lit "planning"] |}.

(** A decoded JSON document. *)
#[warnings="-register-all"] Inductive json : Set :=
| JNull
| JBool (b : bool)
| JInt (z : Z)
| JFloat (f : float)
| JStr (s : str)
| JList (l : list json)
| JDict (d : list (str * json)).

(** [d.get(key, default)] *)
Fixpoint dict_get (d : list (str * json)) (key : str) (default : json) : json :=
  match d with
  | [] => default
  | (k, v) :: d' => if str_eqb key k then v else dict_get d' key default
  end.

(** What one call to a provider's API gives: the text of the first choice,
    or an exception; a reply that carries no text makes the next statement
    raise and counts as [Failed]. *)
Inductive Completion : Set :=
| Failed
| Completed (content : str).

(** The attributes of the two clients that the analysis reads. *)
Record OpenAIClient : Set := {
  openai_api_key : str;
  openai_model : str
}.

Record ClaudeClient : Set := {
  claude_api_key : str;
  claude_model : str
}.

(** [explicit or os.getenv(name)], then [if not key: raise ValueError] *)
Definition require_key (explicit from_env : option str) : result str :=
  let key :=
    match explicit with
    | Some (c :: k) => Some (c :: k)
    | _ => from_env
    end in
  match key with
  | Some (c :: k) => Ok (c :: k)
  | _ => Raise ValueError
  end.

(** [os.getenv(name, default)] *)
Definition getenv_default (getenv : string -> option str) (name : string)
    (default : str) : str :=
  match getenv name with
  | Some v => v
  | None => default
  end.

(** [OpenAIClient.__init__] *)
Definition OpenAIClient_init (getenv : string -> option str)
    (api_key : option str) : result OpenAIClient :=
  key <- require_key api_key (getenv "OPENAI_API_KEY"%string) ;;
  Ok {| openai_api_key := key;
        openai_model :=
          getenv_default getenv "DEFAULT_AI_MODEL" (lit "gpt-4o-mini") |}.

(** [ClaudeClient.__init__] *)
Definition ClaudeClient_init (getenv : string -> option str)
    (api_key : option str) : result ClaudeClient :=
  key <- require_key api_key (getenv "ANTHROPIC_API_KEY"%string) ;;
  Ok {| claude_api_key := key;
        claude_model :=
          getenv_default getenv "COMPLEX_AI_MODEL"
            (lit "claude-3-5-sonnet-20241022") |}.

Section AIEngine.

(** [str.lower] *)
Variable lower : str -> str.

(** [json.loads]; [None] when it raises. *)
Variable json_loads : str -> option json.

(** How pydantic validates a value given for a field of each declared
    type; [None] when it rejects the value. *)
Variable as_bool : json -> option bool.
Variable as_float : json -> option float.
Variable as_int : json -> option Z.
Variable as_str : json -> option str.
Variable as_str_list : json -> option (list str).

Definition validated {A : Type} (o : option A) : result A :=
  match o with
  | Some a => Ok a
  | None => Raise ValidationError
  end.

Definition should_use_complex_model (self : AIModelRouter)
    (message : SlackMessage) : bool :=
  let text_lower := lower (text message) in
  if 200 <? len (text message) then true
  else if any_in (complex_indicators self) text_lower then true
  else if mentions_me message then true
  else if str_eqb (ActivityType_value (activity_type message)) (lit "dm")
  then true
  else false.

Definition _create_fallback_analysis (message : SlackMessage)
    (error_type : str) : result AIAnalysis :=
  let text_lower := lower (text message) in
  let action_required :=
    any_in [lit "?"; lit "please"; lit "can you"; lit "could you";
            lit "review"; lit "check"; lit "confirm"] text_lower in
  let urgency_score := if mentions_me message then 0.7%flt else 0.3%flt in
  let urgency_score :=
    if any_in [lit "urgent"; lit "asap"; [44553; 54632]%N] text_lower
    then 0.9%flt else urgency_score in
  AIAnalysis_new
    {| action_required := action_required;
       urgency_score := urgency_score;
       complexity := lit "simple";
       work_type := OTHER;
       emotional_tone := lit "neutral";
       estimated_time_minutes := 15;
       confidence := 0.3;
       reasoning := lit "Fallback analysis due to " ++ error_type;
       detected_keywords := [];
       model_used := lit "fallback-heuristic" |}.

(** The statements both [try] blocks share after the provider call:
    [json.loads(content)], the [.get] of each field with the caller's
    defaults, [WorkType(...)], and the validating constructor. *)
Definition analysis_of_content (content : str)
    (default_complexity : str) (default_minutes : Z)
    (default_confidence : float) (default_reasoning : str) (model : str)
  : result AIAnalysis :=
  match json_loads content with
  | None => Raise JSONDecodeError
  | Some (JDict analysis_data) =>
      work_type <-
        match dict_get analysis_data (lit "work_type") (JStr (lit "other")) with
        | JStr v => WorkType_of_value v
        | _ => Raise ValueError
        end ;;
      action_required <-
        validated (as_bool
          (dict_get analysis_data (lit "action_required") (JBool false))) ;;
      urgency_score <-
        validated (as_float
          (dict_get analysis_data (lit "urgency_score") (JFloat 0.5))) ;;
      complexity <-
        validated (as_str
          (dict_get analysis_data (lit "complexity") (JStr default_complexity))) ;;
      emotional_tone <-
        validated (as_str
          (dict_get analysis_data (lit "emotional_tone") (JStr (lit "neutral")))) ;;
      estimated_time_minutes <-
        validated (as_int
          (dict_get analysis_data (lit "estimated_time_minutes")
             (JInt default_minutes))) ;;
      confidence <-
        validated (as_float
          (dict_get analysis_data (lit "confidence") (JFloat default_confidence))) ;;
      reasoning <-
        validated (as_str
          (dict_get analysis_data (lit "reasoning") (JStr default_reasoning))) ;;
      detected_keywords <-
        validated (as_str_list
          (dict_get analysis_data (lit "detected_keywords") (JList []))) ;;
      AIAnalysis_new
        {| action_required := action_required;
           urgency_score := urgency_score;
           complexity := complexity;
           work_type := work_type;
           emotional_tone := emotional_tone;
           estimated_time_minutes := estimated_time_minutes;
           confidence := confidence;
           reasoning := reasoning;
           detected_keywords := detected_keywords;
           model_used := model |}
  | Some _ => Raise AttributeError
  end.

(** The [try] block of [quick_classify]; [reply] is what the call to the
    provider gives. *)
Definition quick_classify_attempt (self : OpenAIClient) (reply : Completion)
  : result AIAnalysis :=
  match reply with
  | Failed => Raise ProviderError
  | Completed content =>
      analysis_of_content content (lit "simple") 10 0.7
        (lit "Quick AI classification") (openai_model self)
  end.

Definition quick_classify (self : OpenAIClient) (message : SlackMessage)
    (reply : Completion) : result AIAnalysis :=
  try_except (quick_classify_attempt self reply)
    (fun e => _create_fallback_analysis message (lit "openai-error")).

(** The [try] block of [deep_analyze]. *)
Definition deep_analyze_attempt (self : ClaudeClient) (reply : Completion)
  : result AIAnalysis :=
  match reply with
  | Failed => Raise ProviderError
  | Completed content =>
      analysis_of_content content (lit "medium") 20 0.8
        (lit "Deep Claude analysis") (claude_model self)
  end.

(** [reply] is what the Anthropic call gives; [getenv] and [openai_reply]
    are the environment and the OpenAI reply the handler meets if it
    runs. *)
Definition deep_analyze (self : ClaudeClient) (message : SlackMessage)
    (reply : Completion) (getenv : string -> option str)
    (openai_reply : Completion) : result AIAnalysis :=
  try_except (deep_analyze_attempt self reply)
    (fun e =>
       openai_client <- OpenAIClient_init getenv None ;;
       quick_classify openai_client message openai_reply).

End AIEngine.


(** ** The engine that routes and counts ([ai_engine.py], [AIEngine]) *)

Record AIEngine : Type := {
  router : AIModelRouter;
  openai_client : OpenAIClient;
  claude_client : ClaudeClient;
  usage_stats : Dict.dict Z
}.

(** [AIEngine.__init__] *)
Definition AIEngine_init (getenv : string -> option str) : result AIEngine :=
  router <- Ok AIModelRouter_init ;;
  openai_client <- OpenAIClient_init getenv None ;;
  claude_client <- ClaudeClient_init getenv None ;;
  Ok {| router := router;
        openai_client := openai_client;
        claude_client := claude_client;
        usage_stats :=
          [("openai_calls", 0); ("claude_calls", 0); ("total_tokens", 0)]%string |}.

(** What the outside world holds for one message: the reply each provider
    would give and the environment a new client would read. *)
Record World : Type := {
  claude_reply : Completion;
  openai_reply : Completion;
  environment : string -> option str
}.

(** What a call that may not come back does. *)
Inductive outcome (A : Type) : Type :=
| Returns (a : A)
| Raises (e : exn)
| Hangs.

Arguments Returns {A} a.
Arguments Raises {A} e.
Arguments Hangs {A}.

Section AIEngineClass.

Variable lower : str -> str.
Variable json_loads : str -> option json.
Variable as_bool : json -> option bool.
Variable as_float : json -> option float.
Variable as_int : json -> option Z.
Variable as_str : json -> option str.
Variable as_str_list : json -> option (list str).

(** [self.usage_stats[key] += 1] *)
Definition count_call (self : AIEngine) (key : string) : result AIEngine :=
  n <- Dict.getitem (usage_stats self) key ;;
  Ok {| router := router self;
        openai_client := openai_client self;
        claude_client := claude_client self;
        usage_stats := Dict.setitem (usage_stats self) key (n + 1) |}.

(** [analyze_message] returns its result, or the exception it raised,
    together with the engine as the call leaves it. *)
Definition analyze_message (self : AIEngine) (message : SlackMessage)
    (world : World) : result AIAnalysis * AIEngine :=
  if should_use_complex_model lower (router self) message then
    match count_call self "claude_calls" with
    | Ok self' =>
        (deep_analyze lower json_loads as_bool as_float as_int as_str as_str_list
           (claude_client self') message (claude_reply world)
           (environment world) (openai_reply world),
         self')
    | Raise e => (Raise e, self)
    end
  else
    match count_call self "openai_calls" with
    | Ok self' =>
        (quick_classify lower json_loads as_bool as_float as_int as_str
           as_str_list (openai_client self') message (openai_reply world),
         self')
    | Raise e => (Raise e, self)
    end.

(** The tasks of [analyze_batch] in the order [asyncio.gather] starts
    them; [worlds i] is the world the [i]-th task meets. No task suspends
    once it holds the semaphore, the provider calls being synchronous, so
    each runs to its end before the next starts. A task that raises leaves
    its exception in [results], which the filter then drops. *)
Fixpoint run_tasks (self : AIEngine) (messages : list SlackMessage)
    (worlds : nat -> World) (i : nat)
    (successful_results : list (SlackMessage * AIAnalysis))
  : list (SlackMessage * AIAnalysis) * AIEngine :=
  match messages with
  | [] => (successful_results, self)
  | message :: messages' =>
      match analyze_message self message (worlds i) with
      | (Ok analysis, self') =>
          run_tasks self' messages' worlds (S i)
            (successful_results ++ [(message, analysis)])
      | (Raise _, self') =>
          run_tasks self' messages' worlds (S i) successful_results
      end
  end.

(** [asyncio.Semaphore(n)] raises [ValueError] for a negative [n]; with
    [n = 0] no task ever enters and the gather of a non-empty batch never
    completes. *)
Definition analyze_batch (self : AIEngine) (messages : list SlackMessage)
    (max_concurrent : Z) (worlds : nat -> World)
  : outcome (list (SlackMessage * AIAnalysis)) * AIEngine :=
  if max_concurrent <? 0 then (Raises ValueError, self)
  else
    match messages with
    | [] => (Returns [], self)
    | _ :: _ =>
        if max_concurrent =? 0 then (Hangs, self)
        else
          let (successful_results, self') := run_tasks self messages worlds 0 [] in
          (Returns successful_results, self')
    end.

End AIEngineClass.

(** ** Todo items and lists ([models.py]) *)

Record TodoItem : Type := {
  todo_id : str;
  source_message : SlackMessage;
  ai_analysis : AIAnalysis;
  priority_score : PriorityScore;
  title : str;
  description : str;
  tags : list str;
  completed : bool;
  completed_at : option datetime;
  user_feedback : option str;
  satisfaction_rating : option Z
}.

(** The [priority] property of [TodoItem]. *)
Definition TodoItem_priority (self : TodoItem) : Priority :=
  priority_level (priority_score self).

Definition Priority_eqb (a b : Priority) : bool :=
  match a, b with
  | URGENT, URGENT | HIGH, HIGH | MEDIUM, MEDIUM | LOW, LOW => true
  | _, _ => false
  end.

Record TodoList : Type := {
  list_id : str;
  list_title : str;
  list_description : option str;
  items : list TodoItem;
  updated_at : datetime;
  total_items : Z;
  completed_items : Z;
  source_hours_scanned : Z;
  ai_models_used : list str
}.

(** [sum(1 for item in items if item.completed)] *)
Definition count_completed (l : list TodoItem) : Z :=
  Z.of_nat (List.length (filter completed l)).

(** The [completion_rate] property; the quotient of two integers is the
    float nearest to it, which for counts below 2^53 is the float quotient
    of their conversions. *)
Definition completion_rate (self : TodoList) : float :=
  if total_items self =? 0 then 0.0%flt
  else (of_int (completed_items self) / of_int (total_items self))%flt.

(** [add_item], at clock reading [now]. *)
Definition add_item (self : TodoList) (item : TodoItem) (now : datetime)
  : TodoList :=
  let items := items self ++ [item] in
  {| list_id := list_id self;
     list_title := list_title self;
     list_description := list_description self;
     items := items;
     updated_at := now;
     total_items := Z.of_nat (List.length items);
     completed_items := count_completed items;
     source_hours_scanned := source_hours_scanned self;
     ai_models_used := ai_models_used self |}.

Definition get_by_priority (self : TodoList) (priority : Priority)
  : list TodoItem :=
  filter (fun item => Priority_eqb (TodoItem_priority item) priority)
    (items self).

(** ** The todo generator ([morgan.py], [TodoGenerator]) *)

(** The characters [str.isspace] accepts, which [str.strip] removes. *)
Definition is_space (c : char) : bool :=
  ((9 <=? c) && (c <=? 13) || (28 <=? c) && (c <=? 32) ||
   (c =? 133) || (c =? 160) || (c =? 5760) ||
   (8192 <=? c) && (c <=? 8202) || (c =? 8232) || (c =? 8233) ||
   (c =? 8239) || (c =? 8287) || (c =? 12288))%N.

Fixpoint lstrip (t : str) : str :=
  match t with
  | c :: t' => if is_space c then lstrip t' else t
  | [] => []
  end.

Definition strip (t : str) : str := rev (lstrip (rev (lstrip t))).

(** [str(n)] for a length [n]. *)
Definition str_of_nat (n : nat) : str :=
  lit (DecimalString.NilZero.string_of_uint (Nat.to_uint n)).

Section TodoGenerator.

Variable lower : str -> str.

(** [_generate_description] lays out a display text, the timestamp
    through [strftime] among it; it is taken as given. *)
Variable _generate_description :
  SlackMessage -> AIAnalysis -> PriorityScore -> str.

(** [datetime.strftime('%Y-%m-%d %H:%M')] *)
Variable strftime_minute : datetime -> str.

(** [str(uuid.uuid4())] at its [n]-th call. *)
Variable uuid4 : nat -> str.

(** [list(s)] for the set [s] built by adding the given strings in order:
    its elements in the order the set yields them. *)
Variable list_of_set : list str -> list str.

Definition _generate_title (message : SlackMessage) (analysis : AIAnalysis)
  : str :=
  let sender := username message in
  let text := strip (text message) in
  if contains (lit "?") text then
    [45813; 48320; 58; 32]%N ++ sender ++ [51032; 32; 51656; 47928]%N
  else if any_in [lit "review"; [44160; 53664]%N] (lower text) then
    [44160; 53664; 58; 32]%N ++ sender ++ [32; 50836; 52397]%N
  else if any_in [lit "meeting"; [54924; 51032]%N] (lower text) then
    [54924; 51032; 58; 32]%N ++ sender ++ [50752; 32; 45436; 51032]%N
  else if any_in [lit "approve"; [49849; 51064]%N] (lower text) then
    [49849; 51064; 58; 32]%N ++ sender ++ [32; 50836; 52397; 32; 44148]%N
  else if str_eqb (WorkType_value (work_type analysis)) (lit "decision") then
    [44208; 51221; 58; 32]%N ++ sender ++
    [32; 51032; 49324; 44208; 51221; 32; 54596; 50836]%N
  else if str_eqb (WorkType_value (work_type analysis)) (lit "support") then
    [51648; 50896; 58; 32]%N ++ sender ++ [32; 46020; 50880; 32; 50836; 52397]%N
  else
    [52376; 47532; 58; 32]%N ++ sender ++ [51032; 32; 47700; 49884; 51648]%N.

Definition _generate_tags (message : SlackMessage) (analysis : AIAnalysis)
  : list str :=
  let tags := [] in
  let tags := tags ++ [lit "type:" ++ ActivityType_value (activity_type message)] in
  let tags := tags ++ [lit "work:" ++ WorkType_value (work_type analysis)] in
  let tags := tags ++ [lit "channel:" ++ channel_name message] in
  let tags :=
    if (0.8 <? urgency_score analysis)%flt then tags ++ [lit "urgent"]
    else if (0.6 <? urgency_score analysis)%flt then tags ++ [lit "important"]
    else tags in
  let tags := tags ++ [lit "complexity:" ++ complexity analysis] in
  let tags :=
    if estimated_time_minutes analysis <=? 15 then tags ++ [lit "quick"]
    else if 60 <=? estimated_time_minutes analysis then tags ++ [lit "deep-work"]
    else tags in
  tags.

(** [n] is the number of identifiers drawn so far. *)
Definition generate_todo_item (message : SlackMessage) (analysis : AIAnalysis)
    (priority_score : PriorityScore) (n : nat) : TodoItem :=
  let title := _generate_title message analysis in
  let description := _generate_description message analysis priority_score in
  let tags := _generate_tags message analysis in
  {| todo_id := uuid4 n;
     source_message := message;
     ai_analysis := analysis;
     priority_score := priority_score;
     title := title;
     description := description;
     tags := tags;
     completed := false;
     completed_at := None;
     user_feedback := None;
     satisfaction_rating := None |}.

(** The loop of [generate_todo_list]: the todos and the model names added
    to the set, in order. *)
Fixpoint collect_todos
    (analyzed_messages : list (SlackMessage * AIAnalysis * PriorityScore))
    (n : nat) (todos : list TodoItem) (models_used : list str)
  : list TodoItem * list str :=
  match analyzed_messages with
  | [] => (todos, models_used)
  | (message, analysis, priority) :: rest =>
      if action_required analysis then
        let todo := generate_todo_item message analysis priority n in
        collect_todos rest (S n) (todos ++ [todo])
          (models_used ++ [model_used analysis])
      else collect_todos rest n todos models_used
  end.

(** [todos.sort(key=lambda t: t.priority_score.final_score, reverse=True)] *)
Definition sort_todos (todos : list TodoItem) : list TodoItem :=
  map fst
    (sorted_desc (map (fun t => (t, final_score (priority_score t))) todos)).

(** [n] is the number of identifiers drawn so far; [now] and [created] are
    the clock readings taken for the default title and by the list's
    constructor. *)
Definition generate_todo_list
    (analyzed_messages : list (SlackMessage * AIAnalysis * PriorityScore))
    (title : option str) (n : nat) (now created : datetime) : TodoList :=
  let (todos, models_used) := collect_todos analyzed_messages n [] [] in
  let todos := sort_todos todos in
  let title :=
    match title with
    | Some (c :: t) => c :: t
    | _ =>
        [49828; 47560; 53944; 32; 54624; 51068; 32; 47785; 47197; 32; 45; 32]%N
        ++ strftime_minute now
    end in
  {| list_id := uuid4 (n + List.length todos);
     list_title := title;
     list_description :=
       Some (str_of_nat (List.length analyzed_messages) ++
             [44060; 32; 47700; 49884; 51648; 32; 48516; 49437; 32; 44208; 44284]%N);
     items := todos;
     updated_at := created;
     total_items := Z.of_nat (List.length todos);
     completed_items := 0;
     source_hours_scanned := 24;
     ai_models_used := list_of_set models_used |}.

End TodoGenerator.

(** ** The orchestrator ([morgan.py], [MorganOrchestrator]) *)

(** The attributes of the Slack client that its constructor and
    [collect_all_activities] use; the two caches serve the fetching
    methods, whose results are parameters here. *)
Record SlackClient : Set := {
  slack_token : str;
  slack_user_id : option str
}.

(** [SlackClient.__init__] *)
Definition SlackClient_init (getenv : string -> option str)
    (token : option str) : result SlackClient :=
  token <- require_key token (getenv "SLACK_TOKEN"%string) ;;
  Ok {| slack_token := token; slack_user_id := None |}.

(** [key in seen] for the set of [(message_id, channel_id)] pairs. *)
Definition key_of (activity : SlackMessage) : str * str :=
  (message_id activity, channel_id activity).

Definition key_eqb (a b : str * str) : bool :=
  str_eqb (fst a) (fst b) && str_eqb (snd a) (snd b).

(** The loop of [collect_all_activities] that removes duplicates. *)
Fixpoint unique_loop (activities : list SlackMessage) (seen : list (str * str))
    (unique_activities : list SlackMessage) : list SlackMessage :=
  match activities with
  | [] => unique_activities
  | activity :: rest =>
      let key := key_of activity in
      if existsb (key_eqb key) seen then unique_loop rest seen unique_activities
      else unique_loop rest (seen ++ [key]) (unique_activities ++ [activity])
  end.

(** [collect_all_activities]. [auth] is what [initialize] obtains, the
    user id or an exception, should it be called; [results] is what the
    gather of the four fetching methods gives, a list or an exception
    each. *)
Definition collect_all_activities (self : SlackClient) (auth : result str)
    (results : list (result (list SlackMessage)))
  : result (list SlackMessage) * SlackClient :=
  let initialized :=
    match slack_user_id self with
    | Some (c :: id) => Ok self
    | _ =>
        user_id <- auth ;;
        Ok {| slack_token := slack_token self; slack_user_id := Some user_id |}
    end in
  match initialized with
  | Raise e => (Raise e, self)
  | Ok self =>
      let activities :=
        fold_left
          (fun activities result =>
             match result with
             | Ok found => activities ++ found
             | Raise _ => activities
             end)
          results [] in
      (Ok (unique_loop activities [] []), self)
  end.

Record MorganOrchestrator : Type := {
  slack_client : SlackClient;
  ai_engine : AIEngine;
  priority_calculator : PriorityCalculator;
  morgan_user_patterns : list UserPattern
}.

(** [MorganOrchestrator.__init__] *)
Definition MorganOrchestrator_init (getenv : string -> option str)
  : result MorganOrchestrator :=
  slack_client <- SlackClient_init getenv None ;;
  ai_engine <- AIEngine_init getenv ;;
  Ok {| slack_client := slack_client;
        ai_engine := ai_engine;
        priority_calculator := PriorityCalculator_init;
        morgan_user_patterns := [] |}.

(** [len(l)] *)
Definition len_list {A : Type} (l : list A) : Z := Z.of_nat (List.length l).

(** [l[:k]] *)
Definition slice_to {A : Type} (l : list A) (k : Z) : list A :=
  if 0 <=? k then firstn (Z.to_nat k) l
  else firstn (List.length l - Z.to_nat (- k)) l.

(** A [TodoList] built with a title and a description only. *)
Definition bare_list (id title description : str) (created : datetime)
  : TodoList :=
  {| list_id := id;
     list_title := title;
     list_description := Some description;
     items := [];
     updated_at := created;
     total_items := 0;
     completed_items := 0;
     source_hours_scanned := 24;
     ai_models_used := [] |}.

Section Orchestrator.

Variable lower : str -> str.
Variable json_loads : str -> option json.
Variable as_bool : json -> option bool.
Variable as_float : json -> option float.
Variable as_int : json -> option Z.
Variable as_str : json -> option str.
Variable as_str_list : json -> option (list str).
Variable _generate_description :
  SlackMessage -> AIAnalysis -> PriorityScore -> str.
Variable strftime_minute : datetime -> str.
Variable uuid4 : nat -> str.
Variable list_of_set : list str -> list str.

(** [str(e)] for a caught exception. *)
Variable str_of_exn : exn -> str.

(** Step 3 of [process_slack_activities]: the loop that scores each
    analysed message with the orchestrator's own pattern list. *)
Fixpoint prioritize (calculator : PriorityCalculator)
    (analyzed_activities : list (SlackMessage * AIAnalysis))
    (patterns : list UserPattern) (clock : nat -> datetime) (i : nat)
    (prioritized_activities : list (SlackMessage * AIAnalysis * PriorityScore))
  : result (list (SlackMessage * AIAnalysis * PriorityScore)) * PriorityCalculator :=
  match analyzed_activities with
  | [] => (Ok prioritized_activities, calculator)
  | (message, analysis) :: rest =>
      match calculate_priority lower calculator message analysis
              (Some patterns) (clock i) with
      | (Ok priority, calculator') =>
          prioritize calculator' rest patterns clock (S i)
            (prioritized_activities ++ [(message, analysis, priority)])
      | (Raise e, calculator') => (Raise e, calculator')
      end
  end.

(** The list returned from the [except] branch. *)
Definition error_list (e : exn) (n : nat) (created : datetime) : TodoList :=
  bare_list (uuid4 n)
    [50724; 47448; 32; 45; 32; 48712; 32; 54624; 51068; 32; 47785; 47197]%N
    ([52376; 47532; 32; 51473; 32; 50724; 47448; 32; 48156; 49373; 58; 32]%N
     ++ str_of_exn e)
    created.

(** [process_slack_activities]. [collected] is what
    [collect_all_activities(hours)] gives; [worlds], [clock], [now] and
    [created] are what the analysis tasks, the scoring calls, the default
    title and the list's constructor meet; [n] is the number of
    identifiers drawn so far. The usage statistics read at the end are
    only printed. *)
Definition process_slack_activities (self : MorganOrchestrator)
    (max_messages : Z) (collected : result (list SlackMessage))
    (worlds : nat -> World) (clock : nat -> datetime) (now created : datetime)
    (n : nat) : outcome TodoList * MorganOrchestrator :=
  match collected with
  | Raise e => (Returns (error_list e n created), self)
  | Ok [] =>
      (Returns
         (bare_list (uuid4 n)
            [48712; 32; 54624; 51068; 32; 47785; 47197]%N
            [48516; 49437; 54624; 32; 54876; 46041; 51060; 32; 50630; 49845;
             45768; 45796; 46]%N
            created),
       self)
  | Ok activities =>
      let activities :=
        if max_messages <? len_list activities
        then slice_to activities max_messages else activities in
      match analyze_batch lower json_loads as_bool as_float as_int as_str
              as_str_list (ai_engine self) activities 5 worlds with
      | (Returns analyzed_activities, engine) =>
          match prioritize (priority_calculator self) analyzed_activities
                  (morgan_user_patterns self) clock 0 [] with
          | (Ok prioritized_activities, calculator) =>
              (Returns
                 (generate_todo_list lower _generate_description
                    strftime_minute uuid4 list_of_set prioritized_activities
                    None n now created),
               {| slack_client := slack_client self;
                  ai_engine := engine;
                  priority_calculator := calculator;
                  morgan_user_patterns := morgan_user_patterns self |})
          | (Raise e, calculator) =>
              (Returns (error_list e n created),
               {| slack_client := slack_client self;
                  ai_engine := engine;
                  priority_calculator := calculator;
                  morgan_user_patterns := morgan_user_patterns self |})
          end
      | (Raises e, engine) =>
          (Returns (error_list e n created),
           {| slack_client := slack_client self;
              ai_engine := engine;
              priority_calculator := priority_calculator self;
              morgan_user_patterns := morgan_user_patterns self |})
      | (Hangs, engine) =>
          (Hangs,
           {| slack_client := slack_client self;
              ai_engine := engine;
              priority_calculator := priority_calculator self;
              morgan_user_patterns := morgan_user_patterns self |})
      end
  end.

End Orchestrator.
(** * Specification vocabulary *)

Section CalculatorStates.

Variable lower : str -> str.

(** The calculators a program can hold: a fresh one, and whatever calls to
    the two public methods leave behind. *)
Inductive reachable : PriorityCalculator -> Prop :=
| reachable_init : reachable PriorityCalculator_init
| reachable_calculate self message ai_analysis patterns now :
    reachable self ->
    reachable (snd (calculate_priority lower self message ai_analysis patterns now))
| reachable_batch self items patterns clock :
    reachable self ->
    reachable (snd (batch_calculate_priorities lower self items patterns clock)).

Definition configured (self : PriorityCalculator) : Prop :=
  default_weights self = default_weights PriorityCalculator_init /\
  working_hours self = working_hours PriorityCalculator_init /\
  role_authority_scores self = role_authority_scores PriorityCalculator_init.

End CalculatorStates.

(** The weights dictionary, by its four values in insertion order. *)
Definition weights_of (w_sender w_time w_content w_personal : float)
  : Dict.dict float :=
  [("sender_authority", w_sender); ("time_urgency", w_time);
   ("content_importance", w_content); ("personal_patterns", w_personal)]%string.

(** Texts made of ASCII characters only, on which [str.lower] is
    [ascii_lower]. *)
Definition is_ascii (t : str) : bool := forallb (fun c => N.ltb c 128) t.

Definition lowers_ascii (lower : str -> str) : Prop :=
  forall t, is_ascii t = true -> lower t = ascii_lower t.

(** *** Routing *)

(** The keyword set of the routing rule, as the specification lists it. *)
Definition routing_keywords : list str :=
  [lit "project"; lit "budget"; lit "deadline"; lit "meeting"; lit "review";
   lit "approval"; lit "decision"; lit "strategy"; lit "planning"].

(** The routing rule, as the specification words it. *)
Definition expensive_rule (lower : str -> str) (message : SlackMessage) : Prop :=
  200 < len (text message) \/
  (exists k, In k routing_keywords /\ contains k (lower (text message)) = true) \/
  mentions_me message = true \/
  activity_type message = DM.

(** *** Fallback *)

(** The phrases whose presence the fallback takes for a request, and the
    urgency keywords, the last one being two Hangul syllables. *)
Definition request_phrases : list str :=
  [lit "?"; lit "please"; lit "can you"; lit "could you"; lit "review";
   lit "check"; lit "confirm"].

Definition urgency_keywords : list str :=
  [lit "urgent"; lit "asap"; [44553; 54632]%N].

(** The heuristic result, as the specification words it. *)
Definition heuristic_result (lower : str -> str) (message : SlackMessage)
  : AIAnalysis :=
  {| action_required := any_in request_phrases (lower (text message));
     urgency_score :=
       if any_in urgency_keywords (lower (text message)) then 0.9%flt
       else if mentions_me message then 0.7%flt
       else 0.3%flt;
     complexity := lit "simple";
     work_type := OTHER;
     emotional_tone := lit "neutral";
     estimated_time_minutes := 15;
     confidence := 0.3;
     reasoning := lit "Fallback analysis due to openai-error";
     detected_keywords := [];
     model_used := lit "fallback-heuristic" |}.

(** The tier identifiers the cheap adapter writes: its model name on a
    parsed reply, the heuristic marker otherwise. *)
Definition cheap_tier_identifier (client : OpenAIClient) (r : AIAnalysis) : Prop :=
  model_used r = openai_model client \/ model_used r = lit "fallback-heuristic".

(** *** Example data *)

Definition example_message (channel user body : string) (ts : datetime)
    (kind : ActivityType) (mentioned : bool) : SlackMessage :=
  {| message_id := lit "1700000000.000100";
     channel_id := lit "C123";
     channel_name := lit channel;
     user_id := lit "U123";
     username := lit user;
     text := lit body;
     timestamp := ts;
     permalink := lit "https://slack.com/test";
     activity_type := kind;
     thread_ts := None;
     is_bot := false;
     mentions_me := mentioned |}.

(** Day 738887 is Tuesday 2024-01-02. *)
Definition tuesday_ten : datetime := at_time 738887 10 0 0.

(** A channel message of 250 characters, none of them a letter. *)
Definition long_message : SlackMessage :=
  {| message_id := lit "1700000000.000200";
     channel_id := lit "C123";
     channel_name := lit "dev";
     user_id := lit "U123";
     username := lit "bob";
     text := repeat 46%N 250;
     timestamp := tuesday_ten;
     permalink := lit "https://slack.com/test";
     activity_type := CHANNEL_MESSAGE;
     thread_ts := None;
     is_bot := false;
     mentions_me := false |}.

Definition no_env (name : string) : option str := None.

Definition example_env (name : string) : option str :=
  if String.eqb name "OPENAI_API_KEY" then Some (lit "sk-test") else None.

Definition example_claude : ClaudeClient :=
  {| claude_api_key := lit "sk-ant-test";
     claude_model := lit "claude-3-5-sonnet-20241022" |}.

Definition example_openai : OpenAIClient :=
  {| openai_api_key := lit "sk-test"; openai_model := lit "gpt-4o-mini" |}.

(** Stand-ins for the library functions, for the examples: a decoder that
    accepts nothing and validators that accept the exact JSON type. *)
Definition no_json (content : str) : option json := None.
Definition strict_bool (j : json) : option bool :=
  match j with JBool b => Some b | _ => None end.
Definition strict_float (j : json) : option float :=
  match j with JFloat f => Some f | JInt z => Some (of_int z) | _ => None end.
Definition strict_int (j : json) : option Z :=
  match j with JInt z => Some z | _ => None end.
Definition strict_str (j : json) : option str :=
  match j with JStr s => Some s | _ => None end.
Definition strict_str_list (j : json) : option (list str) :=
  match j with
  | JList l =>
      fold_right
        (fun x acc =>
           match x, acc with
           | JStr s, Some ss => Some (s :: ss)
           | _, _ => None
           end)
        (Some []) l
  | _ => None
  end.

(** *** Sender authority: the channel-name adjustment *)

Inductive ChannelRule : Set :=
| ExecutiveChannel
| UrgencyChannel
| GeneralChannel
| OrdinaryChannel.

Definition executive_words : list str :=
  [lit "exec"; lit "leadership"; lit "board"].
Definition urgency_words : list str :=
  [lit "urgent"; lit "critical"; lit "alert"].
Definition general_words : list str :=
  [lit "general"; lit "random"; lit "off-topic"].

(** The one rule a lowercased channel name falls under, the first that
    matches in this order. *)
Definition channel_rule (name_lower : str) : ChannelRule :=
  if any_in executive_words name_lower then ExecutiveChannel
  else if any_in urgency_words name_lower then UrgencyChannel
  else if any_in general_words name_lower then GeneralChannel
  else OrdinaryChannel.

Definition apply_channel_rule (r : ChannelRule) (base : float) : float :=
  match r with
  | ExecutiveChannel => (base + 0.3)%flt
  | UrgencyChannel => (base + 0.25)%flt
  | GeneralChannel => (base - 0.1)%flt
  | OrdinaryChannel => base
  end.

(** The score before the channel adjustment, and the step after it. *)
Definition activity_base (kind : ActivityType) : float :=
  match kind with
  | DM => (0.5 + 0.2)%flt
  | MENTION => (0.5 + 0.3)%flt
  | THREAD_REPLY => (0.5 + 0.1)%flt
  | CHANNEL_MESSAGE => 0.5%flt
  end.

Definition off_hours_step (self : PriorityCalculator) (ts : datetime)
    (base : float) : float :=
  if (hour ts <? wh_start (working_hours self)) ||
     (wh_end (working_hours self) <? hour ts)
  then (base + 0.1)%flt else base.

(** *** Personal patterns *)

Definition alice_pattern (uses : Z) : UserPattern :=
  {| pattern_type := lit "sender";
     pattern_value := lit "alice";
     weight_adjustment := 0.3;
     pattern_confidence := 1.0;
     usage_count := uses |}.

Definition contribution (p : UserPattern) : float :=
  (weight_adjustment p * pattern_confidence p)%flt.

(** The sum the personal-weight score clamps: 0.5, then the contribution
    of each matching pattern in list order. *)
Definition unclamped_personal (lower : str -> str) (ps : list UserPattern)
    (message : SlackMessage) (ai_analysis : AIAnalysis) : float :=
  fold_left add
    (map contribution
       (filter (fun p => _pattern_matches lower p message ai_analysis) ps))
    0.5%flt.

Definition example_analysis (needs_action : bool) (urgency : float)
    (cx : string) (kind : WorkType) (tone : string) : AIAnalysis :=
  {| action_required := needs_action;
     urgency_score := urgency;
     complexity := lit cx;
     work_type := kind;
     emotional_tone := lit tone;
     estimated_time_minutes := 5;
     confidence := 0.9;
     reasoning := lit "test";
     detected_keywords := [];
     model_used := lit "test" |}.

(** Two patterns on the same sender whose contributions cancel. *)
Definition sender_pattern (value : string) (w c : float) : UserPattern :=
  {| pattern_type := lit "sender";
     pattern_value := lit value;
     weight_adjustment := w;
     pattern_confidence := c;
     usage_count := 1 |}.

(** *** Content importance: the keyword boost *)

(** The score before the keyword boost: the statements of
    [_calculate_content_importance_score] down to the length factor. *)
Definition content_before_keywords (message : SlackMessage)
    (ai_analysis : AIAnalysis) : float :=
  let base_score := 0.5%flt in
  let base_score :=
    if action_required ai_analysis then (base_score + 0.3)%flt
    else base_score in
  let kind := WorkType_value (work_type ai_analysis) in
  let base_score :=
    if mem kind [lit "decision"; lit "meeting"; lit "review"]
    then (base_score + 0.2)%flt
    else if mem kind [lit "info"; lit "support"]
    then (base_score + 0.1)%flt
    else base_score in
  let base_score :=
    if str_eqb (complexity ai_analysis) (lit "complex")
    then (base_score + 0.15)%flt
    else if str_eqb (complexity ai_analysis) (lit "simple")
    then (base_score - 0.05)%flt
    else base_score in
  let base_score :=
    if str_eqb (emotional_tone ai_analysis) (lit "urgent")
    then (base_score + 0.2)%flt
    else if str_eqb (emotional_tone ai_analysis) (lit "frustrated")
    then (base_score + 0.15)%flt
    else if str_eqb (emotional_tone ai_analysis) (lit "encouraging")
    then (base_score + 0.05)%flt
    else base_score in
  let text_length := len (text message) in
  if 500 <? text_length then (base_score + 0.1)%flt
  else if text_length <? 20 then (base_score + 0.05)%flt
  else base_score.

(** 0.05 per counted match, capped at 0.2. *)
Definition keyword_boost (count : Z) : float :=
  min 0.2 (of_int count * 0.05)%flt.

(** How many keywords of the list occur in the text, each counted once. *)
Definition keywords_present (text_lower : str) : Z :=
  Z.of_nat
    (List.length
       (filter (fun k => contains k text_lower) high_priority_keywords)).

(** Following the specification's words, which count occurrences: the
    number of positions of the text at which some keyword starts. *)
Fixpoint occurrences (needle hay : str) : nat :=
  (if startswith needle hay then 1 else 0) +
  match hay with
  | [] => 0
  | _ :: hay' => occurrences needle hay'
  end.

Definition keyword_occurrences (text_lower : str) : Z :=
  Z.of_nat
    (fold_right Nat.add 0%nat
       (map (fun k => occurrences k text_lower) high_priority_keywords)).

(** The keyword boost as the specification states it. *)
Definition boost_counts_occurrences (lower : str -> str) : Prop :=
  forall message ai_analysis,
    _calculate_content_importance_score lower message ai_analysis =
    clamp01
      (content_before_keywords message ai_analysis +
       keyword_boost (keyword_occurrences (lower (text message))))%flt.

(** *** The calculator as a consumer of patterns *)

(** The two statements of the specification: a call leaves the calculator as it was,
    and returns what a fresh calculator returns on the same arguments. *)
Definition leaves_calculator_unchanged (lower : str -> str) : Prop :=
  forall self message ai_analysis patterns now,
    reachable lower self ->
    snd (calculate_priority lower self message ai_analysis patterns now) = self.

Definition result_ignores_history (lower : str -> str) : Prop :=
  forall self message ai_analysis patterns now,
    reachable lower self ->
    fst (calculate_priority lower self message ai_analysis patterns now) =
    fst (calculate_priority lower PriorityCalculator_init message ai_analysis
           patterns now).

Definition alice_message : SlackMessage :=
  example_message "dev" "alice" "see thread" tuesday_ten CHANNEL_MESSAGE false.

Definition plain_analysis : AIAnalysis :=
  example_analysis false 0.5 "medium" OTHER "neutral".

(** An analysis whose urgency lies outside [0,1], as one built without
    validation can be. *)
Definition overshooting_analysis : AIAnalysis :=
  example_analysis true 1.5 "complex" DECISION "urgent".

Definition repeated_keyword_message : SlackMessage :=
  example_message "dev" "bob" "urgent, urgent, urgent, urgent!" tuesday_ten
    CHANNEL_MESSAGE false.

(** *** The short acknowledgement in a general channel *)

Definition thanks_message (m : SlackMessage) : Prop :=
  text m = lit "got it, thanks" /\
  mentions_me m = false /\
  activity_type m = CHANNEL_MESSAGE /\
  channel_name m = lit "random".

Definition quiet_analysis (a : AIAnalysis) : Prop :=
  action_required a = false /\
  urgency_score a = 0.1%flt /\
  work_type a = OTHER /\
  complexity a = lit "simple" /\
  emotional_tone a = lit "neutral".

(** The age of the message in hours, and the two tests the time-urgency
    score makes on it. *)
Definition age_hours (now ts : datetime) : float :=
  (total_seconds now ts / of_int 3600)%flt.

Definition is_recent (now ts : datetime) : bool :=
  (age_hours now ts <? of_int 1)%flt.

Definition is_old (now ts : datetime) : bool :=
  negb (is_recent now ts) && (of_int 24 <? age_hours now ts)%flt.

(** The time-urgency score as a function of the urgency and of the six
    tests [_calculate_time_urgency_score] makes on the clock and the
    timestamp. *)
Definition time_urgency_from (urgency : float)
    (recent old weekend monday business night : bool) : float :=
  let base_score := urgency in
  let base_score :=
    if recent then (base_score + 0.2)%flt
    else if old then (base_score - 0.2)%flt
    else base_score in
  let base_score :=
    if weekend then (base_score - 0.1)%flt
    else if monday then (base_score + 0.1)%flt
    else base_score in
  let base_score :=
    if business then (base_score + 0.1)%flt
    else if night then (base_score + 0.2)%flt
    else base_score in
  clamp01 base_score.

(** The timestamps at which the acknowledgement scores low: sent at an
    hour from 9 to 17, more than a day ago and not on a Monday; or sent at
    hour 18, either more than a day ago or on a weekend at least an hour
    ago. *)
Definition settles_low (now ts : datetime) : bool :=
  ((9 <=? hour ts) && (hour ts <=? 17) && is_old now ts &&
   negb (weekday ts =? 0)) ||
  ((hour ts =? 18) &&
   (is_old now ts || (negb (is_recent now ts) && (5 <=? weekday ts)))).

(** The scenario as the specification states it, for every timestamp and clock. *)
Definition always_low (lower : str -> str) : Prop :=
  forall m a now,
    thanks_message m -> quiet_analysis a ->
    exists p,
      fst (calculate_priority lower PriorityCalculator_init m a None now) = Ok p /\
      (final_score p <? 0.4)%flt = true /\
      priority_level p = LOW.

Definition thanks_example (ts : datetime) : SlackMessage :=
  example_message "random" "bob" "got it, thanks" ts CHANNEL_MESSAGE false.

Definition quiet_example : AIAnalysis :=
  example_analysis false 0.1 "simple" OTHER "neutral".

(** Day 738891 is Saturday 2024-01-06. *)
Definition saturday_ten : datetime := at_time 738891 10 0 0.
Definition monday_noon_after : datetime := at_time 738893 12 0 0.

(** *** Further vocabulary *)

(** A list of keyed items in which no item has a key below that of a later
    item. *)
Definition descending {A : Type} (l : list (A * float)) : Prop :=
  StronglySorted (fun x y => (snd x <? snd y)%flt = false) l.

(** The label [_suggest_action_time] gives at each level. *)
Definition label_of_level (level : Priority) (minutes : Z) : ActionTime :=
  match level with
  | URGENT => WithinThirtyMinutes
  | HIGH => if 30 <? minutes then TodayFocusBlock else TodayWithinHours
  | MEDIUM => ThisWeek
  | LOW => WhenConvenient
  end.

(** The five pattern kinds [_pattern_matches] knows. *)
Definition pattern_kinds : list str :=
  [lit "sender"; lit "channel"; lit "keyword"; lit "work_type"; lit "time"].

(** The four sub-scores as [_generate_reasoning] pairs them with their
    factors. *)
Definition factor_scores (s t c p : float) : list (Factor * float) :=
  [(SenderAuthority, s); (TimeUrgency, t); (ContentImportance, c);
   (PersonalPattern, p)].

(** Validators that accept a JSON value of the declared type as it is;
    pydantic's do. *)
Definition accepts_exact (as_bool : json -> option bool)
    (as_float : json -> option float) (as_int : json -> option Z)
    (as_str : json -> option str) (as_str_list : json -> option (list str))
  : Prop :=
  (forall b, as_bool (JBool b) = Some b) /\
  (forall f, as_float (JFloat f) = Some f) /\
  (forall z, as_int (JInt z) = Some z) /\
  (forall s, as_str (JStr s) = Some s) /\
  as_str_list (JList []) = Some [].

(** What each adapter answers to the empty JSON object. *)
Definition quick_defaults (self : OpenAIClient) : AIAnalysis :=
  {| action_required := false;
     urgency_score := 0.5;
     complexity := lit "simple";
     work_type := OTHER;
     emotional_tone := lit "neutral";
     estimated_time_minutes := 10;
     confidence := 0.7;
     reasoning := lit "Quick AI classification";
     detected_keywords := [];
     model_used := openai_model self |}.

Definition deep_defaults (self : ClaudeClient) : AIAnalysis :=
  {| action_required := false;
     urgency_score := 0.5;
     complexity := lit "medium";
     work_type := OTHER;
     emotional_tone := lit "neutral";
     estimated_time_minutes := 20;
     confidence := 0.8;
     reasoning := lit "Deep Claude analysis";
     detected_keywords := [];
     model_used := claude_model self |}.

(** A decoder that reads every text as the empty object, and one that
    reads every text as an object with the urgency 1.5. *)
Definition empty_object_json (content : str) : option json := Some (JDict []).
Definition overshooting_json (content : str) : option json :=
  Some (JDict [(lit "urgency_score", JFloat 1.5)]).
Definition odd_work_type_json (content : str) : option json :=
  Some (JDict [(lit "work_type", JStr (lit "chore"))]).

(** A key usable as an API key: a non-empty string. *)
Definition usable_key (k : option str) : option str :=
  match k with
  | Some (c :: t) => Some (c :: t)
  | _ => None
  end.

(** The usage counters, by their three values. *)
Definition stats_of (openai claude tokens : Z) : Dict.dict Z :=
  [("openai_calls", openai); ("claude_calls", claude);
   ("total_tokens", tokens)]%string.

(** An environment in which a new [OpenAIClient] can be built. *)
Definition has_openai_key (getenv : string -> option str) : Prop :=
  exists client, OpenAIClient_init getenv None = Ok client.

Definition example_engine : AIEngine :=
  {| router := AIModelRouter_init;
     openai_client := example_openai;
     claude_client := example_claude;
     usage_stats := stats_of 0 0 0 |}.

(** A world in which Claude's call fails and OpenAI's succeeds in being
    unreadable, with the OpenAI key set. *)
Definition failing_world : World :=
  {| claude_reply := Failed;
     openai_reply := Completed (lit "not json");
     environment := example_env |}.

(** Todos in which none has a final score below that of a later one. *)
Definition by_score_descending (l : list TodoItem) : Prop :=
  StronglySorted
    (fun a b =>
       (final_score (priority_score a) <? final_score (priority_score b))%flt
       = false)
    l.

(** What a todo was made from. *)
Definition todo_source (t : TodoItem) : SlackMessage * AIAnalysis * PriorityScore :=
  (source_message t, ai_analysis t, priority_score t).

Definition actionable (x : SlackMessage * AIAnalysis * PriorityScore) : bool :=
  action_required (snd (fst x)).

(** The title given to a question. *)
Definition answer_title (sender : str) : str :=
  [45813; 48320; 58; 32]%N ++ sender ++ [51032; 32; 51656; 47928]%N.

Definition levels : list Priority := [URGENT; HIGH; MEDIUM; LOW].

Definition example_score (final : float) (level : Priority) : PriorityScore :=
  {| final_score := final;
     priority_level := level;
     sender_authority_score := 0.5;
     time_urgency_score := 0.5;
     content_importance_score := 0.5;
     personal_weight_score := 0.5;
     recommended_action_time := ThisWeek;
     score_reasoning := [GeneralPriority] |}.

Definition example_todo (final : float) (level : Priority) (done : bool)
  : TodoItem :=
  {| todo_id := lit "t1";
     source_message := alice_message;
     ai_analysis := plain_analysis;
     priority_score := example_score final level;
     title := lit "title";
     description := lit "description";
     tags := [];
     completed := done;
     completed_at := None;
     user_feedback := None;
     satisfaction_rating := None |}.

(** A list whose counters disagree with its items. *)
Definition stale_list : TodoList :=
  {| list_id := lit "l1";
     list_title := lit "todos";
     list_description := None;
     items := [example_todo 0.9 URGENT true];
     updated_at := tuesday_ten;
     total_items := 0;
     completed_items := 7;
     source_hours_scanned := 24;
     ai_models_used := [] |}.

Definition question_message : SlackMessage :=
  example_message "dev" "bob" "  Review before the meeting?  " tuesday_ten
    CHANNEL_MESSAGE false.

(** An orchestrator as its constructor and its runs leave it: no patterns
    of its own, a calculator as constructed that stores none, and the
    three usage counters. *)
Definition pristine (self : MorganOrchestrator) : Prop :=
  morgan_user_patterns self = [] /\
  configured (priority_calculator self) /\
  user_patterns (priority_calculator self) = [] /\
  exists o c t, usage_stats (ai_engine self) = stats_of o c t.

Definition example_orchestrator : MorganOrchestrator :=
  {| slack_client :=
       {| slack_token := lit "xoxb-test"; slack_user_id := Some (lit "U1") |};
     ai_engine := example_engine;
     priority_calculator := PriorityCalculator_init;
     morgan_user_patterns := [] |}.

Definition no_description (m : SlackMessage) (a : AIAnalysis)
    (p : PriorityScore) : str := [].
Definition no_strftime (t : datetime) : str := [].
Definition numbered_uuid (n : nat) : str := str_of_nat n.
Definition first_seen (l : list str) : list str := l.
Definition no_exn_text (e : exn) : str := [].

(** An environment that sets the three credentials and no model name. *)
Definition credentials_env (name : string) : option str :=
  if String.eqb name "DEFAULT_AI_MODEL" then None
  else if String.eqb name "COMPLEX_AI_MODEL" then None
  else Some (lit "secret").

(** What [collect_all_activities] has in hand before it removes
    duplicates: the lists the fetching methods returned, one after the
    other. *)
Definition fetched (results : list (result (list SlackMessage)))
  : list SlackMessage :=
  flat_map (fun r => match r with Ok found => found | Raise _ => [] end) results.

(** The fields of a message and of an analysis that the calculator
    reads. *)
Definition same_scored_fields (m m' : SlackMessage) : Prop :=
  channel_name m = channel_name m' /\
  username m = username m' /\
  text m = text m' /\
  timestamp m = timestamp m' /\
  activity_type m = activity_type m'.

Definition same_scored_analysis (a a' : AIAnalysis) : Prop :=
  action_required a = action_required a' /\
  urgency_score a = urgency_score a' /\
  complexity a = complexity a' /\
  work_type a = work_type a' /\
  emotional_tone a = emotional_tone a' /\
  estimated_time_minutes a = estimated_time_minutes a'.

(** The same message as [alice_message], sent by a bot, mentioning the
    user, under another id. *)
Definition alice_bot_message : SlackMessage :=
  {| message_id := lit "1700000000.000999";
     channel_id := lit "C999";
     channel_name := lit "dev";
     user_id := lit "B007";
     username := lit "alice";
     text := lit "see thread";
     timestamp := tuesday_ten;
     permalink := lit "https://slack.com/other";
     activity_type := CHANNEL_MESSAGE;
     thread_ts := Some (lit "1700000000.000001");
     is_bot := true;
     mentions_me := true |}.

(** The same analysis as [plain_analysis], held with another confidence
    by another model. *)
Definition unsure_analysis : AIAnalysis :=
  {| action_required := false;
     urgency_score := 0.5;
     complexity := lit "medium";
     work_type := OTHER;
     emotional_tone := lit "neutral";
     estimated_time_minutes := 5;
     confidence := 0.1;
     reasoning := lit "guess";
     detected_keywords := [lit "thread"];
     model_used := lit "fallback-heuristic" |}.

(** * Properties *)

(** ** Floats: comparisons and clamping *)

Lemma ltb_leb (a b : float) : (a <? b)%flt = true -> (a <=? b)%flt = true.
Proof.
  unfold ltb, leb, SFltb, SFleb.
  destruct (SFcompare a b) as [[ | | ] | ]; congruence.
Qed.

Lemma min_cases (a b : float) :
  (min a b = b /\ (b <? a)%flt = true) \/ (min a b = a /\ (b <? a)%flt = false).
Proof.
  unfold min. destruct (b <? a)%flt; auto.
Qed.

Lemma max_cases (a b : float) :
  (max a b = b /\ (a <? b)%flt = true) \/ (max a b = a /\ (a <? b)%flt = false).
Proof.
  unfold max. destruct (a <? b)%flt; auto.
Qed.

(** Whatever [x] is, a NaN or an infinity included, [max(0.0, min(1.0, x))]
    is [x] itself, [0.0] or [1.0], and passes the [ge=0, le=1] check. *)
Lemma clamp01_in_unit (x : float) : in_unit (clamp01 x) = true.
Proof.
  unfold clamp01, in_unit.
  destruct (min_cases 1.0 x) as [[Hm Hlt] | [Hm _]]; rewrite Hm.
  - destruct (max_cases 0.0 x) as [[HM Hgt] | [HM _]]; rewrite HM.
    + now rewrite (ltb_leb _ _ Hgt), (ltb_leb _ _ Hlt).
    + reflexivity.
  - reflexivity.
Qed.

Lemma clamp01_cases (x : float) :
  clamp01 x = x \/ clamp01 x = 0.0%flt \/ clamp01 x = 1.0%flt.
Proof.
  unfold clamp01.
  destruct (min_cases 1.0 x) as [[Hm _] | [Hm _]]; rewrite Hm.
  - destruct (max_cases 0.0 x) as [[HM _] | [HM _]]; rewrite HM; auto.
  - right; right; reflexivity.
Qed.

(** ** Strings: what [contains] decides *)

Lemma str_eqb_eq (a b : str) : str_eqb a b = true <-> a = b.
Proof.
  revert b; induction a as [ | x a IH]; intros [ | y b]; simpl;
    try (split; [discriminate | discriminate]); try tauto.
  rewrite andb_true_iff, N.eqb_eq, IH.
  split; [intros [-> ->]; reflexivity | intros H; inversion H; auto].
Qed.

Lemma startswith_spec (p t : str) :
  startswith p t = true <-> exists post, t = p ++ post.
Proof.
  revert t; induction p as [ | x p IH]; intros t; simpl.
  - split; [intros _; now exists t | reflexivity].
  - destruct t as [ | y t].
    + split; [discriminate | intros [post H]; discriminate].
    + rewrite andb_true_iff, N.eqb_eq, IH. split.
      * intros [-> [post ->]]. now exists post.
      * intros [post H]. inversion H; subst. split; [reflexivity | now exists post].
Qed.

(** [needle in hay] holds exactly when [hay] is [pre ++ needle ++ post]. *)
Lemma contains_spec (needle hay : str) :
  contains needle hay = true <-> exists pre post, hay = pre ++ needle ++ post.
Proof.
  induction hay as [ | c hay IH].
  - simpl. rewrite orb_false_r, startswith_spec. split.
    + intros [post H]. now exists [], post.
    + intros [pre [post H]]. destruct pre; [now exists post | discriminate].
  - cbn [contains]. rewrite orb_true_iff, startswith_spec, IH. split.
    + intros [[post H] | [pre [post H]]].
      * now exists [], post.
      * exists (c :: pre), post. now rewrite H.
    + intros [[ | c' pre] [post H]].
      * left. now exists post.
      * right. inversion H. now exists pre, post.
Qed.

Lemma any_in_spec (ks : list str) (t : str) :
  any_in ks t = true <-> exists k, In k ks /\ contains k t = true.
Proof.
  unfold any_in. apply existsb_exists.
Qed.

(** ** The calculator's configuration is invariant *)

Section CalculatorProperties.

Variable lower : str -> str.

Lemma configured_set_user_patterns self ps :
  configured self -> configured (set_user_patterns self ps).
Proof. intros H; exact H. Qed.

Lemma calculate_priority_state self message ai_analysis patterns now :
  snd (calculate_priority lower self message ai_analysis patterns now) =
  match patterns with
  | Some (p :: ps) => set_user_patterns self (p :: ps)
  | _ => self
  end.
Proof. reflexivity. Qed.

Lemma configured_calculate self message ai_analysis patterns now :
  configured self ->
  configured (snd (calculate_priority lower self message ai_analysis patterns now)).
Proof.
  intros H. rewrite calculate_priority_state.
  destruct patterns as [[ | p ps] | ]; auto using configured_set_user_patterns.
Qed.

Lemma configured_batch_loop items : forall self patterns clock i acc,
  configured self ->
  configured (snd (batch_loop lower self items patterns clock i acc)).
Proof.
  induction items as [ | [message analysis] items IH]; intros self patterns clock i acc H.
  - exact H.
  - cbn [batch_loop].
    pose proof (configured_calculate self message analysis patterns (clock i) H) as H'.
    destruct (calculate_priority lower self message analysis patterns (clock i))
      as [[priority | e] self']; cbn [snd] in *.
    + now apply IH.
    + exact H'.
Qed.

Lemma reachable_configured self : reachable lower self -> configured self.
Proof.
  induction 1 as [ | self message ai_analysis patterns now _ IH
                   | self items patterns clock _ IH].
  - repeat split.
  - now apply configured_calculate.
  - unfold batch_calculate_priorities. apply configured_batch_loop.
    destruct patterns as [[ | p ps] | ]; auto using configured_set_user_patterns.
Qed.

End CalculatorProperties.

(** ** [calculate_priority] always returns *)

Section ScoreMessage.

Variable lower : str -> str.

Lemma getitem_weights (a b c d : float) :
  Dict.getitem (weights_of a b c d) "sender_authority" = Ok a /\
  Dict.getitem (weights_of a b c d) "time_urgency" = Ok b /\
  Dict.getitem (weights_of a b c d) "content_importance" = Ok c /\
  Dict.getitem (weights_of a b c d) "personal_patterns" = Ok d.
Proof. repeat split. Qed.

(** The normalised weights exist for each kind of activity: no key is
    missing and the total is never zero. *)
Lemma adjusted_weights_ok self message :
  configured self ->
  exists a b c d, _get_adjusted_weights self message = Ok (weights_of a b c d).
Proof.
  intros [Hw _]. unfold _get_adjusted_weights. rewrite Hw.
  destruct (activity_type message); vm_compute; eauto.
Qed.

Lemma insert_desc_length {A : Type} (x : A * float) (l : list (A * float)) :
  List.length (insert_desc x l) = S (List.length l).
Proof.
  induction l as [ | y l IH]; simpl; [reflexivity | ].
  destruct (snd y <? snd x)%flt; simpl; congruence.
Qed.

Lemma sorted_desc_length {A : Type} (l : list (A * float)) :
  List.length (sorted_desc l) = List.length l.
Proof.
  unfold sorted_desc.
  enough (H : forall acc, List.length (fold_left (fun acc x => insert_desc x acc) l acc)
                          = (List.length l + List.length acc)%nat)
    by (rewrite H; simpl; lia).
  induction l as [ | x l IH]; intros acc; simpl; [reflexivity | ].
  rewrite IH, insert_desc_length. lia.
Qed.

Lemma generate_reasoning_ok s t c p w :
  exists r, _generate_reasoning s t c p w = Ok r.
Proof.
  unfold _generate_reasoning.
  pose proof (sorted_desc_length
    [(SenderAuthority, s); (TimeUrgency, t); (ContentImportance, c);
     (PersonalPattern, p)]) as Hlen.
  destruct (sorted_desc _) as [ | [f1 s1] [ | [f2 s2] rest]]; try discriminate.
  eauto.
Qed.

Lemma sender_in_unit self message :
  in_unit (_calculate_sender_authority_score lower self message) = true.
Proof. apply clamp01_in_unit. Qed.

Lemma time_in_unit message ai_analysis now :
  in_unit (_calculate_time_urgency_score message ai_analysis now) = true.
Proof. apply clamp01_in_unit. Qed.

Lemma content_in_unit message ai_analysis :
  in_unit (_calculate_content_importance_score lower message ai_analysis) = true.
Proof. apply clamp01_in_unit. Qed.

Lemma personal_in_unit self message ai_analysis :
  in_unit (_apply_personal_patterns lower self message ai_analysis) = true.
Proof. apply clamp01_in_unit. Qed.

(** The score returned once the weights are known, field by field. *)
Lemma score_message_value self message ai_analysis now a b c d :
  _get_adjusted_weights self message = Ok (weights_of a b c d) ->
  exists p,
    score_message lower self message ai_analysis now = Ok p /\
    final_score p =
      clamp01
        (_calculate_sender_authority_score lower self message * a +
         _calculate_time_urgency_score message ai_analysis now * b +
         _calculate_content_importance_score lower message ai_analysis * c +
         _apply_personal_patterns lower self message ai_analysis * d)%flt /\
    priority_level p = _score_to_priority (final_score p) /\
    sender_authority_score p = _calculate_sender_authority_score lower self message /\
    time_urgency_score p = _calculate_time_urgency_score message ai_analysis now /\
    content_importance_score p =
      _calculate_content_importance_score lower message ai_analysis /\
    personal_weight_score p =
      _apply_personal_patterns lower self message ai_analysis /\
    recommended_action_time p =
      _suggest_action_time (final_score p) message ai_analysis.
Proof.
  intros Hw. unfold score_message. rewrite Hw.
  destruct (getitem_weights a b c d) as (Ha & Hb & Hc & Hd).
  cbn [bind]. rewrite Ha. cbn [bind]. rewrite Hb. cbn [bind].
  rewrite Hc. cbn [bind]. rewrite Hd. cbn [bind].
  match goal with
  | |- context [_generate_reasoning ?s ?t ?c ?p ?w] =>
      destruct (generate_reasoning_ok s t c p w) as [r ->]
  end.
  cbn [bind]. unfold PriorityScore_new, PriorityScore_valid.
  cbn [final_score sender_authority_score time_urgency_score
       content_importance_score personal_weight_score].
  rewrite clamp01_in_unit, sender_in_unit, time_in_unit, content_in_unit,
    personal_in_unit.
  cbn [andb]. eexists. split; [reflexivity | ].
  cbn [final_score priority_level sender_authority_score time_urgency_score
       content_importance_score personal_weight_score recommended_action_time].
  repeat split.
Qed.

(** The score a configured calculator returns. *)
Lemma score_message_ok self message ai_analysis now :
  configured self ->
  exists p,
    score_message lower self message ai_analysis now = Ok p /\
    (exists x, final_score p = clamp01 x) /\
    priority_level p = _score_to_priority (final_score p) /\
    sender_authority_score p = _calculate_sender_authority_score lower self message /\
    time_urgency_score p = _calculate_time_urgency_score message ai_analysis now /\
    content_importance_score p =
      _calculate_content_importance_score lower message ai_analysis /\
    personal_weight_score p =
      _apply_personal_patterns lower self message ai_analysis /\
    recommended_action_time p =
      _suggest_action_time (final_score p) message ai_analysis.
Proof.
  intros Hcfg.
  destruct (adjusted_weights_ok self message Hcfg) as (a & b & c & d & Hw).
  destruct (score_message_value self message ai_analysis now a b c d Hw)
    as (p & Hp & Hf & Hrest).
  exists p. split; [exact Hp | ]. split; [ | exact Hrest].
  eexists. exact Hf.
Qed.

Lemma calculate_priority_result self message ai_analysis patterns now :
  fst (calculate_priority lower self message ai_analysis patterns now) =
  score_message lower
    (snd (calculate_priority lower self message ai_analysis patterns now))
    message ai_analysis now.
Proof. reflexivity. Qed.

End ScoreMessage.

(** ** Bucketing *)

(** A threshold that a score misses is missed at every higher threshold
    too; the thresholds are positive finite constants. *)
Lemma leb_threshold_mono (m1 m2 : positive) (e1 e2 : Z) (x : float) :
  (e1 < e2 \/ (e1 = e2 /\ (m1 <= m2)%positive)) ->
  (S754_finite false m1 e1 <=? x)%flt = false ->
  (S754_finite false m2 e2 <=? x)%flt = false.
Proof.
  intros Hle. unfold leb, SFleb.
  destruct x as [s | [ | ] | | [ | ] m e]; cbn [SFcompare]; try congruence.
  destruct (Z.compare_spec e1 e) as [He1 | He1 | He1];
    destruct (Z.compare_spec e2 e) as [He2 | He2 | He2];
    try congruence; try lia.
  subst e. assert (e1 = e2) by lia. subst e2.
  rewrite !Pos.compare_cont_spec. unfold Pos.switch_Eq.
  destruct (Pos.compare_spec m1 m) as [H1 | H1 | H1];
    destruct (Pos.compare_spec m2 m) as [H2 | H2 | H2];
    intros; try congruence; lia.
Qed.

Lemma not_06_not_08 (x : float) :
  (0.6 <=? x)%flt = false -> (0.8 <=? x)%flt = false.
Proof. apply leb_threshold_mono. right. split; [reflexivity | discriminate]. Qed.

Lemma not_04_not_06 (x : float) :
  (0.4 <=? x)%flt = false -> (0.6 <=? x)%flt = false.
Proof. apply leb_threshold_mono. left. reflexivity. Qed.

(** [_score_to_priority] against the table, one row per level. *)
Lemma score_to_priority_table (score : float) :
  (_score_to_priority score = URGENT <-> (0.8 <=? score)%flt = true) /\
  (_score_to_priority score = HIGH <->
     (0.6 <=? score)%flt = true /\ (0.8 <=? score)%flt = false) /\
  (_score_to_priority score = MEDIUM <->
     (0.4 <=? score)%flt = true /\ (0.6 <=? score)%flt = false) /\
  (_score_to_priority score = LOW <-> (0.4 <=? score)%flt = false).
Proof.
  unfold _score_to_priority.
  destruct (0.4 <=? score)%flt eqn:H4.
  - destruct (0.6 <=? score)%flt eqn:H6.
    + destruct (0.8 <=? score)%flt eqn:H8; intuition congruence.
    + rewrite (not_06_not_08 _ H6). intuition congruence.
  - rewrite (not_04_not_06 _ H4), (not_06_not_08 _ (not_04_not_06 _ H4)).
    intuition congruence.
Qed.

Section Claims_Calculator.

Variable lower : str -> str.

(** C1. Every call of [calculate_priority] on a reachable calculator returns
    a score whose [final_score] lies in [0,1] and whose [priority_level] is
    the bucket of that final score: urgent from 0.8, high from 0.6, medium
    from 0.4, low below, each bound inclusive below. *)
Theorem calculate_priority_bucket self message ai_analysis patterns now :
  reachable lower self ->
  exists p,
    fst (calculate_priority lower self message ai_analysis patterns now) = Ok p /\
    in_unit (final_score p) = true /\
    (priority_level p = URGENT <-> (0.8 <=? final_score p)%flt = true) /\
    (priority_level p = HIGH <->
       (0.6 <=? final_score p)%flt = true /\ (0.8 <=? final_score p)%flt = false) /\
    (priority_level p = MEDIUM <->
       (0.4 <=? final_score p)%flt = true /\ (0.6 <=? final_score p)%flt = false) /\
    (priority_level p = LOW <-> (0.4 <=? final_score p)%flt = false).
Proof.
  intros Hr. rewrite calculate_priority_result.
  pose proof (reachable_configured lower _
                (reachable_calculate lower self message ai_analysis patterns now Hr))
    as Hcfg.
  destruct (score_message_ok lower _ message ai_analysis now Hcfg)
    as (p & Hp & [x Hx] & Hlevel & _).
  exists p. split; [exact Hp | ]. split.
  - rewrite Hx. apply clamp01_in_unit.
  - rewrite Hlevel. apply score_to_priority_table.
Qed.

(** C5. On a reachable calculator [calculate_priority] returns for every
    message, analysis, pattern list and clock reading, whatever floats they
    carry, and each of the four sub-scores and the final score it returns
    lies in [0,1]. *)
Theorem calculate_priority_never_raises self message ai_analysis patterns now :
  reachable lower self ->
  exists p,
    fst (calculate_priority lower self message ai_analysis patterns now) = Ok p /\
    in_unit (sender_authority_score p) = true /\
    in_unit (time_urgency_score p) = true /\
    in_unit (content_importance_score p) = true /\
    in_unit (personal_weight_score p) = true /\
    in_unit (final_score p) = true.
Proof.
  intros Hr. rewrite calculate_priority_result.
  pose proof (reachable_configured lower _
                (reachable_calculate lower self message ai_analysis patterns now Hr))
    as Hcfg.
  destruct (score_message_ok lower _ message ai_analysis now Hcfg)
    as (p & Hp & [x Hx] & _ & Hs & Ht & Hc & Hpers & _).
  exists p. split; [exact Hp | ].
  rewrite Hs, Ht, Hc, Hpers, Hx.
  auto using clamp01_in_unit, sender_in_unit, time_in_unit, content_in_unit,
    personal_in_unit.
Qed.

End Claims_Calculator.

Lemma calculate_priority_bucket_witness :
  exists p,
    fst (calculate_priority ascii_lower PriorityCalculator_init alice_message
           plain_analysis None tuesday_ten) = Ok p /\
    in_unit (final_score p) = true /\
    (priority_level p = URGENT <-> (0.8 <=? final_score p)%flt = true) /\
    (priority_level p = HIGH <->
       (0.6 <=? final_score p)%flt = true /\ (0.8 <=? final_score p)%flt = false) /\
    (priority_level p = MEDIUM <->
       (0.4 <=? final_score p)%flt = true /\ (0.6 <=? final_score p)%flt = false) /\
    (priority_level p = LOW <-> (0.4 <=? final_score p)%flt = false).
Proof.
  apply (calculate_priority_bucket ascii_lower PriorityCalculator_init
           alice_message plain_analysis None tuesday_ten
           (reachable_init ascii_lower)).
Defined.

Lemma calculate_priority_never_raises_witness :
  exists p,
    fst (calculate_priority ascii_lower PriorityCalculator_init alice_message
           overshooting_analysis (Some [sender_pattern "alice" 7.5 1.0])
           tuesday_ten) = Ok p /\
    in_unit (sender_authority_score p) = true /\
    in_unit (time_urgency_score p) = true /\
    in_unit (content_importance_score p) = true /\
    in_unit (personal_weight_score p) = true /\
    in_unit (final_score p) = true.
Proof.
  apply (calculate_priority_never_raises ascii_lower PriorityCalculator_init
           alice_message overshooting_analysis
           (Some [sender_pattern "alice" 7.5 1.0]) tuesday_ten
           (reachable_init ascii_lower)).
Defined.

(** An urgency of 1.5 and a pattern worth 7.5 are cut to 1 where they
    enter. *)
Example out_of_range_is_clamped :
  exists p,
    fst (calculate_priority ascii_lower PriorityCalculator_init alice_message
           overshooting_analysis (Some [sender_pattern "alice" 7.5 1.0])
           tuesday_ten) = Ok p /\
    time_urgency_score p = 1.0%flt /\
    personal_weight_score p = 1.0%flt.
Proof. vm_compute. eexists. repeat split. Qed.

(** ** Routing *)

Lemma activity_is_dm (a : ActivityType) :
  str_eqb (ActivityType_value a) (lit "dm") = true <-> a = DM.
Proof. destruct a; split; intro H; try reflexivity; discriminate. Qed.

(** C2. The router built by [AIModelRouter.__init__] selects the expensive
    tier exactly when the text is longer than 200 characters, or its
    lowercased form contains one of the nine keywords, or the message
    mentions the user, or it is a direct message; the answer is a function
    of the message. A channel message of 250 characters without keyword
    and without mention goes to the expensive tier. *)
Theorem should_use_complex_model_iff (lower : str -> str) :
  (forall message,
     should_use_complex_model lower AIModelRouter_init message = true <->
     expensive_rule lower message) /\
  (forall message,
     len (text message) = 250 ->
     any_in routing_keywords (lower (text message)) = false ->
     mentions_me message = false ->
     activity_type message = CHANNEL_MESSAGE ->
     should_use_complex_model lower AIModelRouter_init message = true).
Proof.
  assert (Hiff : forall message,
     should_use_complex_model lower AIModelRouter_init message = true <->
     expensive_rule lower message).
  { intros message. unfold should_use_complex_model, expensive_rule.
    change (complex_indicators AIModelRouter_init) with routing_keywords.
    rewrite <- any_in_spec, <- activity_is_dm, <- Z.ltb_lt.
    destruct (200 <? len (text message));
      destruct (any_in routing_keywords (lower (text message)));
      destruct (mentions_me message);
      destruct (str_eqb (ActivityType_value (activity_type message)) (lit "dm"));
      intuition congruence. }
  split; [exact Hiff | ].
  intros message Hlen _ _ _. apply Hiff. left. lia.
Qed.

Lemma should_use_complex_model_iff_witness :
  should_use_complex_model ascii_lower AIModelRouter_init long_message = true.
Proof.
  apply (proj2 (should_use_complex_model_iff ascii_lower) long_message);
    reflexivity.
Defined.

(** ** Analysis adapters *)

Section Claims_Adapters.

Variable lower : str -> str.
Variable json_loads : str -> option json.
Variable as_bool : json -> option bool.
Variable as_float : json -> option float.
Variable as_int : json -> option Z.
Variable as_str : json -> option str.
Variable as_str_list : json -> option (list str).

Local Abbreviation quick_attempt :=
  (quick_classify_attempt json_loads as_bool as_float as_int as_str as_str_list).
Local Abbreviation deep_attempt :=
  (deep_analyze_attempt json_loads as_bool as_float as_int as_str as_str_list).
Local Abbreviation quick :=
  (quick_classify lower json_loads as_bool as_float as_int as_str as_str_list).
Local Abbreviation deep :=
  (deep_analyze lower json_loads as_bool as_float as_int as_str as_str_list).

(** The heuristic result always passes validation. *)
Lemma create_fallback_analysis_ok message :
  _create_fallback_analysis lower message (lit "openai-error") =
  Ok (heuristic_result lower message).
Proof.
  unfold _create_fallback_analysis, heuristic_result, AIAnalysis_new,
    AIAnalysis_valid.
  change [lit "urgent"; lit "asap"; [44553%N; 54632%N]] with urgency_keywords.
  cbn [urgency_score confidence estimated_time_minutes].
  destruct (any_in urgency_keywords (lower (text message)));
    destruct (mentions_me message); reflexivity.
Qed.

(** A call that raises, and a reply that [json.loads] rejects, both make
    the [try] block raise. *)
Lemma quick_attempt_failed self : quick_attempt self Failed = Raise ProviderError.
Proof. reflexivity. Qed.

Lemma quick_attempt_unparsable self content :
  json_loads content = None ->
  quick_attempt self (Completed content) = Raise JSONDecodeError.
Proof.
  intros H. cbn [quick_classify_attempt]. unfold analysis_of_content.
  now rewrite H.
Qed.

Lemma deep_attempt_failed self : deep_attempt self Failed = Raise ProviderError.
Proof. reflexivity. Qed.

Lemma deep_attempt_unparsable self content :
  json_loads content = None ->
  deep_attempt self (Completed content) = Raise JSONDecodeError.
Proof.
  intros H. cbn [deep_analyze_attempt]. unfold analysis_of_content.
  now rewrite H.
Qed.

(** A result the [try] block of [quick_classify] returns carries the
    client's model name. *)
Lemma quick_attempt_model self reply r :
  quick_attempt self reply = Ok r -> model_used r = openai_model self.
Proof.
  destruct reply as [ | content]; cbn [quick_classify_attempt]; [discriminate | ].
  unfold analysis_of_content.
  destruct (json_loads content) as [[ | | | | | | d] | ]; try discriminate.
  repeat match goal with
  | |- bind ?m _ = Ok _ -> _ =>
      let x := fresh "x" in destruct m as [x | ?]; cbn [bind]; [ | discriminate]
  end.
  unfold AIAnalysis_new.
  match goal with |- (if ?b then _ else _) = _ -> _ => destruct b end;
    [ | discriminate].
  intros H; inversion H; reflexivity.
Qed.

(** [quick_classify] always returns, and what it returns comes from the
    cheap tier. *)
Lemma quick_classify_total self message reply :
  exists r, quick self message reply = Ok r /\ cheap_tier_identifier self r.
Proof.
  unfold quick_classify, try_except.
  destruct (quick_attempt self reply) as [r | e] eqn:H.
  - exists r. split; [reflexivity | ]. left. now apply quick_attempt_model in H.
  - rewrite create_fallback_analysis_ok. eexists. split; [reflexivity | ].
    right. reflexivity.
Qed.

(** C4. When the [try] block of [quick_classify] raises, because the call
    failed or because the reply could not be interpreted, [quick_classify]
    returns the heuristic result: a function of the lowercased text and of
    [mentions_me] that consults no reply. Two such failures on messages
    with the same text and flag give the same result. *)
Theorem quick_classify_fallback self message reply e :
  quick_attempt self reply = Raise e ->
  quick self message reply = Ok (heuristic_result lower message) /\
  (forall self' message' reply' e',
     quick_attempt self' reply' = Raise e' ->
     text message' = text message ->
     mentions_me message' = mentions_me message ->
     quick self' message' reply' = quick self message reply).
Proof.
  intros H.
  assert (Hq : forall s m r x, quick_attempt s r = Raise x ->
                 quick s m r = Ok (heuristic_result lower m)).
  { intros s m r x Hx. unfold quick_classify, try_except. rewrite Hx.
    apply create_fallback_analysis_ok. }
  split; [now apply Hq with e | ].
  intros self' message' reply' e' H' Ht Hm.
  rewrite (Hq _ _ _ _ H), (Hq _ _ _ _ H').
  unfold heuristic_result. now rewrite Ht, Hm.
Qed.

(** C3. When the [try] block of [deep_analyze] raises, [deep_analyze]
    builds an [OpenAIClient] and returns what its [quick_classify] returns
    on the same message; with the OpenAI key configured that is a result,
    and its [model_used] is one of the cheap adapter's identifiers. *)
Theorem deep_analyze_delegates self message reply e getenv openai_reply :
  deep_attempt self reply = Raise e ->
  deep self message reply getenv openai_reply =
    (client <- OpenAIClient_init getenv None ;;
     quick client message openai_reply) /\
  (forall client,
     OpenAIClient_init getenv None = Ok client ->
     exists r,
       deep self message reply getenv openai_reply = Ok r /\
       quick client message openai_reply = Ok r /\
       cheap_tier_identifier client r).
Proof.
  intros H.
  assert (Hd : deep self message reply getenv openai_reply =
               (client <- OpenAIClient_init getenv None ;;
                quick client message openai_reply)).
  { unfold deep_analyze, try_except. now rewrite H. }
  split; [exact Hd | ].
  intros client Hc. rewrite Hd, Hc. cbn [bind].
  destruct (quick_classify_total client message openai_reply) as (r & Hr & Hid).
  exists r. auto.
Qed.

End Claims_Adapters.

Lemma quick_classify_fallback_witness :
  quick_classify ascii_lower no_json strict_bool strict_float strict_int
    strict_str strict_str_list example_openai
    (example_message "dev" "bob" "Can you check this ASAP?" tuesday_ten
       CHANNEL_MESSAGE false)
    Failed
  = Ok (heuristic_result ascii_lower
          (example_message "dev" "bob" "Can you check this ASAP?" tuesday_ten
             CHANNEL_MESSAGE false)).
Proof.
  apply (proj1 (quick_classify_fallback ascii_lower no_json strict_bool
                  strict_float strict_int strict_str strict_str_list
                  example_openai _ Failed ProviderError eq_refl)).
Defined.

Lemma deep_analyze_delegates_witness :
  exists r,
    deep_analyze ascii_lower no_json strict_bool strict_float strict_int
      strict_str strict_str_list example_claude long_message
      (Completed (lit "not json")) example_env Failed = Ok r /\
    quick_classify ascii_lower no_json strict_bool strict_float strict_int
      strict_str strict_str_list example_openai long_message Failed = Ok r /\
    cheap_tier_identifier example_openai r.
Proof.
  apply (proj2 (deep_analyze_delegates ascii_lower no_json strict_bool
                  strict_float strict_int strict_str strict_str_list
                  example_claude long_message (Completed (lit "not json"))
                  JSONDecodeError example_env Failed eq_refl)
               example_openai eq_refl).
Defined.

(** ** Sender authority *)

Section Claims_Sender.

Variable lower : str -> str.

(** C10. The sender-authority score applies exactly one channel rule, the
    first that matches among executive (+0.3), urgency (+0.25) and general
    (-0.1), or none; a channel name holding both an executive and an
    urgency keyword gets the +0.3 alone. *)
Theorem sender_channel_rule_exclusive self message :
  _calculate_sender_authority_score lower self message =
    clamp01
      (off_hours_step self (timestamp message)
         (apply_channel_rule (channel_rule (lower (channel_name message)))
            (activity_base (activity_type message)))) /\
  (any_in executive_words (lower (channel_name message)) = true ->
   any_in urgency_words (lower (channel_name message)) = true ->
   _calculate_sender_authority_score lower self message =
     clamp01
       (off_hours_step self (timestamp message)
          (activity_base (activity_type message) + 0.3)%flt)).
Proof.
  assert (H : _calculate_sender_authority_score lower self message =
    clamp01
      (off_hours_step self (timestamp message)
         (apply_channel_rule (channel_rule (lower (channel_name message)))
            (activity_base (activity_type message))))).
  { unfold _calculate_sender_authority_score, off_hours_step, channel_rule.
    change [lit "exec"; lit "leadership"; lit "board"] with executive_words.
    change [lit "urgent"; lit "critical"; lit "alert"] with urgency_words.
    change [lit "general"; lit "random"; lit "off-topic"] with general_words.
    destruct (activity_type message);
      destruct (any_in executive_words (lower (channel_name message)));
      destruct (any_in urgency_words (lower (channel_name message)));
      destruct (any_in general_words (lower (channel_name message)));
      reflexivity. }
  split; [exact H | ].
  intros He _. rewrite H. unfold channel_rule. now rewrite He.
Qed.

End Claims_Sender.

Lemma sender_channel_rule_exclusive_witness :
  _calculate_sender_authority_score ascii_lower PriorityCalculator_init
    (example_message "exec-urgent" "bob" "status" tuesday_ten CHANNEL_MESSAGE false)
  = 0.8%flt.
Proof.
  rewrite (proj2 (sender_channel_rule_exclusive ascii_lower
                    PriorityCalculator_init
                    (example_message "exec-urgent" "bob" "status" tuesday_ten
                       CHANNEL_MESSAGE false)) eq_refl eq_refl).
  reflexivity.
Defined.

(** ** Personal patterns *)

Section Claims_Patterns.

Variable lower : str -> str.
Hypothesis lower_ascii : lowers_ascii lower.

Lemma fold_patterns_unclamped message ai_analysis (ps : list UserPattern) :
  forall base : float,
    fold_left
      (fun base_score pattern =>
         if _pattern_matches lower pattern message ai_analysis
         then (base_score + weight_adjustment pattern * pattern_confidence pattern)%flt
         else base_score)
      ps base =
    fold_left add
      (map contribution
         (filter (fun p => _pattern_matches lower p message ai_analysis) ps))
      base.
Proof.
  induction ps as [ | p ps IH]; intros base; cbn [fold_left filter]; [reflexivity | ].
  destruct (_pattern_matches lower p message ai_analysis); cbn [map fold_left];
    apply IH.
Qed.

(** The contributions are summed as they are and the sum is clamped once. *)
Lemma apply_personal_patterns_unclamped self message ai_analysis :
  _apply_personal_patterns lower self message ai_analysis =
  clamp01 (unclamped_personal lower (user_patterns self) message ai_analysis).
Proof.
  unfold _apply_personal_patterns, unclamped_personal.
  now rewrite fold_patterns_unclamped.
Qed.

Lemma alice_pattern_matches uses message ai_analysis :
  _pattern_matches lower (alice_pattern uses) message ai_analysis =
  contains (lit "alice") (lower (username message)).
Proof.
  unfold _pattern_matches. cbn [pattern_type pattern_value alice_pattern].
  rewrite (lower_ascii (lit "alice")) by reflexivity. reflexivity.
Qed.

(** C7. Supplying the single pattern (sender, "alice", 0.3, 1.0) for a
    message whose lowercased username contains "alice" gives a
    personal-weight score of 0.8, that is 0.3 over the 0.5 a fresh
    calculator gives without patterns; for any pattern list the score is
    the clamp of 0.5 plus the unclamped contributions of the matching
    patterns. *)
Theorem personal_weight_alice self message ai_analysis uses now :
  reachable lower self ->
  contains (lit "alice") (lower (username message)) = true ->
  (exists p,
     fst (calculate_priority lower self message ai_analysis
            (Some [alice_pattern uses]) now) = Ok p /\
     personal_weight_score p = 0.8%flt /\
     personal_weight_score p = (0.5 + 0.3)%flt) /\
  (exists p0,
     fst (calculate_priority lower PriorityCalculator_init message ai_analysis
            None now) = Ok p0 /\
     personal_weight_score p0 = 0.5%flt) /\
  (forall self' message' ai_analysis',
     _apply_personal_patterns lower self' message' ai_analysis' =
     clamp01
       (unclamped_personal lower (user_patterns self') message' ai_analysis')).
Proof.
  intros Hr Hname. split; [ | split].
  - rewrite calculate_priority_result.
    pose proof (reachable_configured lower _
      (reachable_calculate lower self message ai_analysis
         (Some [alice_pattern uses]) now Hr)) as Hcfg.
    destruct (score_message_ok lower _ message ai_analysis now Hcfg)
      as (p & Hp & _ & _ & _ & _ & _ & Hpers & _).
    exists p. split; [exact Hp | ].
    rewrite Hpers, apply_personal_patterns_unclamped.
    rewrite calculate_priority_state. cbn [user_patterns set_user_patterns].
    unfold unclamped_personal. cbn [filter].
    rewrite alice_pattern_matches, Hname. split; reflexivity.
  - rewrite calculate_priority_result.
    pose proof (reachable_configured lower _
      (reachable_calculate lower PriorityCalculator_init message ai_analysis
         None now (reachable_init lower))) as Hcfg.
    destruct (score_message_ok lower _ message ai_analysis now Hcfg)
      as (p & Hp & _ & _ & _ & _ & _ & Hpers & _).
    exists p. split; [exact Hp | ].
    rewrite Hpers. reflexivity.
  - intros. apply apply_personal_patterns_unclamped.
Qed.

End Claims_Patterns.

Lemma ascii_lower_lowers_ascii : lowers_ascii ascii_lower.
Proof. intros t _. reflexivity. Qed.

Lemma personal_weight_alice_witness :
  exists p,
    fst (calculate_priority ascii_lower PriorityCalculator_init
           (example_message "dev" "Alice.Kim" "see thread" tuesday_ten
              CHANNEL_MESSAGE false)
           (example_analysis false 0.5 "simple" INFO "neutral")
           (Some [alice_pattern 3]) tuesday_ten) = Ok p /\
    personal_weight_score p = 0.8%flt /\
    personal_weight_score p = (0.5 + 0.3)%flt.
Proof.
  apply (proj1 (personal_weight_alice ascii_lower ascii_lower_lowers_ascii
                  PriorityCalculator_init
                  (example_message "dev" "Alice.Kim" "see thread" tuesday_ten
                     CHANNEL_MESSAGE false)
                  (example_analysis false 0.5 "simple" INFO "neutral")
                  3 tuesday_ten (reachable_init ascii_lower) eq_refl)).
Defined.

(** Contributions that cancel leave the baseline: the 1.25 reached on the
    way is not cut back to 1. *)
Example personal_weight_cancels :
  _apply_personal_patterns ascii_lower
    (set_user_patterns PriorityCalculator_init
       [sender_pattern "alice" 0.75 1.0; sender_pattern "alice" (opp 0.75) 1.0;
        sender_pattern "bob" 0.25 1.0])
    (example_message "dev" "alice" "see thread" tuesday_ten CHANNEL_MESSAGE false)
    (example_analysis false 0.5 "simple" INFO "neutral")
  = 0.5%flt.
Proof. reflexivity. Qed.

(** ** Content importance: the keyword boost *)

Lemma keywords_present_range (t : str) : 0 <= keywords_present t <= 11.
Proof.
  unfold keywords_present.
  pose proof (filter_length_le (fun k => contains k t) high_priority_keywords) as H.
  change (List.length high_priority_keywords) with 11%nat in H. lia.
Qed.

Lemma keyword_boost_table (k : Z) :
  (0 <= k < 4 -> keyword_boost k = (of_int k * 0.05)%flt) /\
  (4 <= k <= 11 -> keyword_boost k = 0.2%flt).
Proof.
  split; intros H.
  - assert (Hk : k = 0 \/ k = 1 \/ k = 2 \/ k = 3) by lia.
    destruct Hk as [-> | [-> | [-> | ->]]]; reflexivity.
  - assert (Hk : k = 4 \/ k = 5 \/ k = 6 \/ k = 7 \/ k = 8 \/ k = 9 \/ k = 10 \/ k = 11)
      by lia.
    destruct Hk as [-> | [-> | [-> | [-> | [-> | [-> | [-> | ->]]]]]]]; reflexivity.
Qed.

(** A keyword is in the text exactly when it occurs there at least once. *)
Lemma contains_occurrences (needle hay : str) :
  contains needle hay = true <-> (1 <= occurrences needle hay)%nat.
Proof.
  induction hay as [ | c hay IH]; cbn [contains occurrences].
  - destruct (startswith needle []); cbn; split; intros H;
      try reflexivity; try discriminate; lia.
  - rewrite orb_true_iff, IH.
    destruct (startswith needle (c :: hay)); split; intros H; try lia; auto.
Qed.

(** The code's count takes each keyword's occurrences as at most one. *)
Lemma keywords_present_min (t : str) :
  keywords_present t =
  Z.of_nat
    (fold_right Nat.add 0%nat
       (map (fun k => Nat.min 1 (occurrences k t)) high_priority_keywords)).
Proof.
  unfold keywords_present. f_equal.
  induction high_priority_keywords as [ | k ks IH]; [reflexivity | ].
  cbn [filter map fold_right]. rewrite <- IH.
  pose proof (contains_occurrences k t) as Hk.
  destruct (contains k t); cbn [List.length].
  - assert (1 <= occurrences k t)%nat by now apply Hk. lia.
  - assert (occurrences k t = 0)%nat.
    { destruct (occurrences k t); [reflexivity | ].
      assert (false = true) by (apply Hk; lia). discriminate. }
    lia.
Qed.

(** C6, as the code has it. The keyword boost of the content-importance
    score is 0.05 for each keyword of the list that occurs in the
    lowercased text, a keyword counting once however often it occurs, and
    0.2 from four keywords on. *)
Theorem keyword_boost_per_keyword (lower : str -> str) message ai_analysis :
  _calculate_content_importance_score lower message ai_analysis =
    clamp01
      (content_before_keywords message ai_analysis +
       keyword_boost (keywords_present (lower (text message))))%flt /\
  keywords_present (lower (text message)) =
    Z.of_nat
      (fold_right Nat.add 0%nat
         (map (fun k => Nat.min 1 (occurrences k (lower (text message))))
            high_priority_keywords)) /\
  0 <= keywords_present (lower (text message)) <= 11 /\
  (forall k, 0 <= k < 4 -> keyword_boost k = (of_int k * 0.05)%flt) /\
  (forall k, 4 <= k <= 11 -> keyword_boost k = 0.2%flt).
Proof.
  split; [reflexivity | ]. split; [apply keywords_present_min | ].
  split; [apply keywords_present_range | ].
  split; intros k; apply keyword_boost_table.
Qed.

(** C6, as the specification states it, fails: four occurrences of one keyword
    earn 0.05, not 0.2. *)
Lemma boost_counts_occurrences_fails : ~ boost_counts_occurrences ascii_lower.
Proof.
  intros H. specialize (H repeated_keyword_message plain_analysis).
  vm_compute in H. discriminate H.
Qed.

Example repeated_keyword_counts :
  keyword_occurrences (ascii_lower (text repeated_keyword_message)) = 4 /\
  keywords_present (ascii_lower (text repeated_keyword_message)) = 1 /\
  _calculate_content_importance_score ascii_lower repeated_keyword_message
    plain_analysis = (0.5 + 0.05)%flt.
Proof. repeat split. Qed.

(** ** The calculator keeps the patterns it is given *)

Lemma configured_eta self :
  configured self ->
  self = set_user_patterns PriorityCalculator_init (user_patterns self).
Proof.
  destruct self as [w r ps h]. unfold configured, set_user_patterns.
  cbn [default_weights working_hours role_authority_scores user_patterns].
  intros (-> & -> & ->). reflexivity.
Qed.

Section Claims_State.

Variable lower : str -> str.

(** C9, as the code has it. A call that supplies a non-empty pattern list
    stores it in the calculator, and its result does not depend on the
    calculator it is made on; a call that supplies none, or an empty one,
    leaves the calculator as it was and scores with the stored list, so
    that it returns what the last call that supplied a list would. The
    weights and working hours stay as constructed throughout. *)
Theorem calculate_priority_keeps_patterns self message ai_analysis patterns now :
  reachable lower self ->
  (forall p ps, patterns = Some (p :: ps) ->
     snd (calculate_priority lower self message ai_analysis patterns now) =
       set_user_patterns self (p :: ps) /\
     (forall self', reachable lower self' ->
        fst (calculate_priority lower self' message ai_analysis patterns now) =
        fst (calculate_priority lower self message ai_analysis patterns now)) /\
     (forall message' ai_analysis' now',
        fst (calculate_priority lower
               (snd (calculate_priority lower self message ai_analysis patterns now))
               message' ai_analysis' None now') =
        fst (calculate_priority lower self message' ai_analysis' patterns now'))) /\
  (patterns = None \/ patterns = Some [] ->
     snd (calculate_priority lower self message ai_analysis patterns now) = self /\
     fst (calculate_priority lower self message ai_analysis patterns now) =
       score_message lower self message ai_analysis now) /\
  configured (snd (calculate_priority lower self message ai_analysis patterns now)).
Proof.
  intros Hr. split; [ | split].
  - intros p ps ->. split; [reflexivity | ]. split; [ | reflexivity].
    intros self' Hr'. rewrite !calculate_priority_result, !calculate_priority_state.
    rewrite (configured_eta self (reachable_configured lower self Hr)).
    rewrite (configured_eta self' (reachable_configured lower self' Hr')).
    reflexivity.
  - intros [-> | ->]; split; reflexivity.
  - apply configured_calculate, reachable_configured with lower. exact Hr.
Qed.

End Claims_State.

Lemma calculate_priority_keeps_patterns_witness :
  snd (calculate_priority ascii_lower PriorityCalculator_init alice_message
         plain_analysis (Some [alice_pattern 3]) tuesday_ten) =
  set_user_patterns PriorityCalculator_init [alice_pattern 3].
Proof.
  apply (proj1 (proj1 (calculate_priority_keeps_patterns ascii_lower
                         PriorityCalculator_init alice_message plain_analysis
                         (Some [alice_pattern 3]) tuesday_ten
                         (reachable_init ascii_lower))
                      (alice_pattern 3) [] eq_refl)).
Defined.

(** C9, as the specification states it, fails on both counts: the call with a
    pattern list changes the calculator, and the next call, given no list,
    scores with that list where a fresh calculator scores without. *)
Lemma pure_consumer_fails :
  ~ leaves_calculator_unchanged ascii_lower /\
  ~ result_ignores_history ascii_lower.
Proof.
  split.
  - intros H.
    specialize (H PriorityCalculator_init alice_message plain_analysis
                  (Some [alice_pattern 3]) tuesday_ten (reachable_init ascii_lower)).
    apply (f_equal user_patterns) in H. discriminate H.
  - intros H.
    specialize (H (snd (calculate_priority ascii_lower PriorityCalculator_init
                          alice_message plain_analysis (Some [alice_pattern 3])
                          tuesday_ten))
                  alice_message plain_analysis None tuesday_ten
                  (reachable_calculate ascii_lower _ _ _ _ _
                     (reachable_init ascii_lower))).
    vm_compute in H. discriminate H.
Qed.

Example stored_patterns_are_used :
  exists p p0,
    fst (calculate_priority ascii_lower
           (snd (calculate_priority ascii_lower PriorityCalculator_init
                   alice_message plain_analysis (Some [alice_pattern 3])
                   tuesday_ten))
           alice_message plain_analysis None tuesday_ten) = Ok p /\
    personal_weight_score p = 0.8%flt /\
    fst (calculate_priority ascii_lower PriorityCalculator_init alice_message
           plain_analysis None tuesday_ten) = Ok p0 /\
    personal_weight_score p0 = 0.5%flt.
Proof. vm_compute. eexists. eexists. repeat split. Qed.

(** ** The short acknowledgement *)

Lemma time_urgency_tests message ai_analysis now :
  _calculate_time_urgency_score message ai_analysis now =
  time_urgency_from (urgency_score ai_analysis)
    (age_hours now (timestamp message) <? of_int 1)%flt
    (of_int 24 <? age_hours now (timestamp message))%flt
    (5 <=? weekday (timestamp message))
    (weekday (timestamp message) =? 0)
    ((9 <=? hour (timestamp message)) && (hour (timestamp message) <=? 17))
    ((22 <=? hour (timestamp message)) || (hour (timestamp message) <=? 6)).
Proof. reflexivity. Qed.

Section Claims_Scenario.

Variable lower : str -> str.
Hypothesis lower_ascii : lowers_ascii lower.

Lemma thanks_sender m :
  thanks_message m ->
  _calculate_sender_authority_score lower PriorityCalculator_init m =
  if (hour (timestamp m) <? 9) || (18 <? hour (timestamp m))
  then 0.5%flt else 0.4%flt.
Proof.
  intros (_ & _ & Hact & Hchan).
  unfold _calculate_sender_authority_score. rewrite Hact, Hchan.
  rewrite (lower_ascii (lit "random")) by reflexivity.
  cbn [working_hours wh_start wh_end PriorityCalculator_init].
  destruct ((hour (timestamp m) <? 9) || (18 <? hour (timestamp m)));
    reflexivity.
Qed.

Lemma thanks_content m a :
  thanks_message m -> quiet_analysis a ->
  _calculate_content_importance_score lower m a = 0.5%flt.
Proof.
  intros (Htext & _) (Hreq & _ & Hwork & Hcx & Htone).
  unfold _calculate_content_importance_score.
  rewrite Htext, Hreq, Hwork, Hcx, Htone.
  rewrite (lower_ascii (lit "got it, thanks")) by reflexivity.
  reflexivity.
Qed.

Lemma thanks_weights m :
  thanks_message m ->
  _get_adjusted_weights PriorityCalculator_init m =
  _get_adjusted_weights PriorityCalculator_init (thanks_example 0).
Proof.
  intros (_ & _ & Hact & _). unfold _get_adjusted_weights. now rewrite Hact.
Qed.

(** C8, as the code has it. For the acknowledgement in "random" and its
    analysis, a fresh calculator given no patterns returns a final score
    below 0.4 and the level low exactly at the timestamps of
    [settles_low]; at every other timestamp and clock reading it returns
    a final score of at least 0.4 and the level medium. *)
Theorem thanks_message_priority m a now :
  thanks_message m -> quiet_analysis a ->
  exists p,
    fst (calculate_priority lower PriorityCalculator_init m a None now) = Ok p /\
    if settles_low now (timestamp m)
    then (final_score p <? 0.4)%flt = true /\ priority_level p = LOW
    else (0.4 <=? final_score p)%flt = true /\ priority_level p = MEDIUM.
Proof.
  intros Hm Ha.
  pose proof (thanks_weights m Hm) as Hw. vm_compute in Hw.
  destruct (score_message_value lower PriorityCalculator_init m a now _ _ _ _ Hw)
    as (p & Hp & Hf & Hl & _).
  exists p. split; [exact Hp | ].
  rewrite Hl, Hf. clear Hp Hf Hl Hw.
  rewrite (thanks_sender m Hm), (thanks_content m a Hm Ha), time_urgency_tests.
  destruct Ha as (_ & -> & _).
  change (_apply_personal_patterns lower PriorityCalculator_init m a) with 0.5%flt.
  unfold settles_low, is_old, is_recent.
  set (h := hour (timestamp m)). set (wd := weekday (timestamp m)).
  set (age := age_hours now (timestamp m)).
  clearbody h wd age. clear.
  destruct (Z.ltb_spec h 9); destruct (Z.ltb_spec 18 h);
    destruct (Z.leb_spec 9 h); destruct (Z.leb_spec h 17);
    destruct (Z.leb_spec 22 h); destruct (Z.leb_spec h 6);
    destruct (Z.eqb_spec h 18); try (exfalso; lia);
    destruct (Z.leb_spec 5 wd); destruct (Z.eqb_spec wd 0); try (exfalso; lia);
    destruct (age <? of_int 1)%flt; destruct (of_int 24 <? age)%flt;
    vm_compute; split; reflexivity.
Qed.

End Claims_Scenario.

Lemma thanks_message_priority_witness :
  exists p,
    fst (calculate_priority ascii_lower PriorityCalculator_init
           (thanks_example saturday_ten) quiet_example None monday_noon_after)
      = Ok p /\
    (final_score p <? 0.4)%flt = true /\ priority_level p = LOW.
Proof.
  apply (thanks_message_priority ascii_lower ascii_lower_lowers_ascii
           (thanks_example saturday_ten) quiet_example monday_noon_after).
  - repeat split.
  - repeat split.
Defined.

(** C8, as the specification states it, fails: sent on a Tuesday at 10:00 and
    scored at once, the acknowledgement gets 0.4545... and the level
    medium. *)
Lemma always_low_fails : ~ always_low ascii_lower.
Proof.
  intros H.
  destruct (H (thanks_example tuesday_ten) quiet_example tuesday_ten)
    as (p & Hp & _ & Hlow).
  - repeat split.
  - repeat split.
  - vm_compute in Hp. inversion Hp; subst p. discriminate Hlow.
Qed.

Example thanks_on_tuesday :
  exists p,
    fst (calculate_priority ascii_lower PriorityCalculator_init
           (thanks_example tuesday_ten) quiet_example None tuesday_ten) = Ok p /\
    (0.4 <=? final_score p)%flt = true /\
    priority_level p = MEDIUM /\
    sender_authority_score p = 0.4%flt /\
    time_urgency_score p = 0.4%flt /\
    content_importance_score p = 0.5%flt /\
    personal_weight_score p = 0.5%flt.
Proof. vm_compute. eexists. repeat split. Qed.

(** * Further properties *)

(** ** The order on floats *)

Ltac split_compare :=
  rewrite ?Pos.compare_cont_spec; unfold Pos.switch_Eq;
  repeat match goal with
  | |- context [Z.compare ?a ?b] => destruct (Z.compare_spec a b)
  | |- context [Pos.compare ?a ?b] => destruct (Pos.compare_spec a b)
  end;
  cbn [CompOpp]; try congruence; lia.

(** If [y < x] and not [y < z], then not [x < z]; NaN, which compares
    false with everything, included. *)
Lemma ltb_not_ltb_trans (x y z : float) :
  (y <? x)%flt = true -> (y <? z)%flt = false -> (x <? z)%flt = false.
Proof.
  unfold ltb, SFltb.
  destruct x as [sx | sx | | sx mx ex], y as [sy | sy | | sy my ey],
    z as [sz | sz | | sz mz ez];
    cbn [SFcompare];
    try destruct sx; try destruct sy; try destruct sz;
    try congruence; split_compare.
Qed.

Lemma ltb_irrefl (x : float) : (x <? x)%flt = false.
Proof.
  unfold ltb, SFltb.
  destruct x as [s | s | | s m e]; cbn [SFcompare]; try reflexivity;
    destruct s; try reflexivity; split_compare.
Qed.

Lemma ltb_asym (x y : float) : (y <? x)%flt = true -> (x <? y)%flt = false.
Proof.
  intros H. apply ltb_not_ltb_trans with y; [exact H | apply ltb_irrefl].
Qed.

(** ** Sorting by score *)

Lemma insert_desc_perm {A : Type} (x : A * float) (l : list (A * float)) :
  Permutation (insert_desc x l) (x :: l).
Proof.
  induction l as [ | y l IH]; cbn [insert_desc]; [reflexivity | ].
  destruct (snd y <? snd x)%flt; [reflexivity | ].
  rewrite IH. apply perm_swap.
Qed.

Lemma insert_desc_descending {A : Type} (x : A * float) (l : list (A * float)) :
  descending l -> descending (insert_desc x l).
Proof.
  unfold descending. induction 1 as [ | y l Hl IH Hy]; cbn [insert_desc].
  - repeat constructor.
  - destruct (snd y <? snd x)%flt eqn:Hyx.
    + constructor; [now constructor | ].
      constructor; [now apply ltb_asym | ].
      rewrite Forall_forall in *. intros z Hz.
      apply ltb_not_ltb_trans with (snd y); auto.
    + constructor; [exact IH | ].
      rewrite Forall_forall in *. intros z Hz.
      apply (Permutation_in _ (insert_desc_perm x l)) in Hz.
      destruct Hz as [<- | Hz]; auto.
Qed.

Lemma fold_insert_desc {A : Type} (l : list (A * float)) :
  forall acc,
    descending acc ->
    descending (fold_left (fun acc x => insert_desc x acc) l acc) /\
    Permutation (fold_left (fun acc x => insert_desc x acc) l acc) (l ++ acc).
Proof.
  induction l as [ | x l IH]; intros acc Hacc; cbn [fold_left app].
  - split; [exact Hacc | reflexivity].
  - destruct (IH (insert_desc x acc) (insert_desc_descending x acc Hacc))
      as [Hs Hp].
    split; [exact Hs | ].
    rewrite Hp, insert_desc_perm. symmetry. apply Permutation_middle.
Qed.

Lemma sorted_desc_perm_descending {A : Type} (l : list (A * float)) :
  Permutation (sorted_desc l) l /\ descending (sorted_desc l).
Proof.
  unfold sorted_desc.
  destruct (fold_insert_desc l [] (SSorted_nil _)) as [Hs Hp].
  split; [ | exact Hs]. now rewrite Hp, app_nil_r.
Qed.

(** X1. [sorted(items, key=score, reverse=True)] rearranges the items,
    losing and repeating none, so that no item has a score below that of a
    later one. *)
Theorem sorted_desc_sorts {A : Type} (l : list (A * float)) :
  Permutation (sorted_desc l) l /\ descending (sorted_desc l).
Proof.
  unfold sorted_desc.
  destruct (fold_insert_desc l [] (SSorted_nil _)) as [Hs Hp].
  split; [ | exact Hs]. now rewrite Hp, app_nil_r.
Qed.

(** ** The reasoning names the strongest factors *)

(** X2. [_generate_reasoning] always returns one or two reasons. A factor
    it reports as high has a score above 0.7 that none of the four scores
    exceeds; a factor it reports as also considered has a score above 0.6;
    the general reason stands alone. *)
Theorem generate_reasoning_names_top (s t c p : float) (w : Dict.dict float) :
  exists reasons,
    _generate_reasoning s t c p w = Ok reasons /\
    (1 <= List.length reasons <= 2)%nat /\
    (forall f x, In (IsHigh f x) reasons ->
       In (f, x) (factor_scores s t c p) /\ (0.7 <? x)%flt = true /\
       forall g y, In (g, y) (factor_scores s t c p) -> (x <? y)%flt = false) /\
    (forall f x, In (AlsoConsidered f x) reasons ->
       In (f, x) (factor_scores s t c p) /\ (0.6 <? x)%flt = true) /\
    (In GeneralPriority reasons -> reasons = [GeneralPriority]).
Proof.
  unfold _generate_reasoning. fold (factor_scores s t c p).
  destruct (sorted_desc_perm_descending (factor_scores s t c p)) as [Hperm Hdesc].
  pose proof (Permutation_length Hperm) as Hlen.
  destruct (sorted_desc (factor_scores s t c p))
    as [ | [f1 s1] [ | [f2 s2] rest]] eqn:Hsorted; try discriminate Hlen.
  assert (Htop : forall g y, In (g, y) (factor_scores s t c p) ->
                   (s1 <? y)%flt = false).
  { intros g y Hin. apply (Permutation_in _ (Permutation_sym Hperm)) in Hin.
    destruct Hin as [Heq | Hin].
    - inversion Heq; subst. apply ltb_irrefl.
    - inversion Hdesc as [ | ? ? _ Hall]; subst.
      rewrite Forall_forall in Hall. apply (Hall (g, y) Hin). }
  assert (H1 : In (f1, s1) (factor_scores s t c p))
    by (apply (Permutation_in _ Hperm); left; reflexivity).
  assert (H2 : In (f2, s2) (factor_scores s t c p))
    by (apply (Permutation_in _ Hperm); right; left; reflexivity).
  eexists. split; [reflexivity | ].
  destruct (0.7 <? s1)%flt eqn:E1; destruct (0.6 <? s2)%flt eqn:E2;
    cbn [app List.length In];
    (split; [lia | ]);
    repeat split; intros;
    repeat match goal with
    | H : _ \/ _ |- _ => destruct H
    | H : False |- _ => destruct H
    | H : IsHigh _ _ = IsHigh _ _ |- _ => inversion H; subst; clear H
    | H : AlsoConsidered _ _ = AlsoConsidered _ _ |- _ =>
        inversion H; subst; clear H
    | H : _ = _ |- _ => discriminate H
    end; eauto.
Qed.

(** ** The action-time label follows the level *)

Lemma suggest_action_time_level score message ai_analysis :
  _suggest_action_time score message ai_analysis =
  label_of_level (_score_to_priority score)
    (estimated_time_minutes ai_analysis).
Proof.
  unfold _suggest_action_time, _score_to_priority, label_of_level.
  destruct (0.8 <=? score)%flt; [reflexivity | ].
  destruct (0.6 <=? score)%flt; [reflexivity | ].
  destruct (0.4 <=? score)%flt; reflexivity.
Qed.

(** A call on a reachable calculator returns. *)
Lemma calculate_priority_never_raises_aux lower self message ai_analysis patterns now :
  reachable lower self ->
  exists p,
    fst (calculate_priority lower self message ai_analysis patterns now) = Ok p.
Proof.
  intros Hr. rewrite calculate_priority_result.
  pose proof (reachable_configured lower _
                (reachable_calculate lower self message ai_analysis patterns now Hr))
    as Hcfg.
  destruct (score_message_ok lower _ message ai_analysis now Hcfg) as (p & Hp & _).
  now exists p.
Qed.

Section Extras_Calculator.

Variable lower : str -> str.

(** X3. In every score [calculate_priority] returns, the recommended
    action time is the label of the priority level: within 30 minutes for
    urgent, today for high (a focus block when the estimate exceeds 30
    minutes), this week for medium, when convenient for low. *)
Theorem action_time_follows_level self message ai_analysis patterns now :
  reachable lower self ->
  exists p,
    fst (calculate_priority lower self message ai_analysis patterns now) = Ok p /\
    recommended_action_time p =
      label_of_level (priority_level p) (estimated_time_minutes ai_analysis).
Proof.
  intros Hr. rewrite calculate_priority_result.
  pose proof (reachable_configured lower _
                (reachable_calculate lower self message ai_analysis patterns now Hr))
    as Hcfg.
  destruct (score_message_ok lower _ message ai_analysis now Hcfg)
    as (p & Hp & _ & Hlevel & _ & _ & _ & _ & Haction).
  exists p. split; [exact Hp | ].
  rewrite Haction, Hlevel. apply suggest_action_time_level.
Qed.

(** ** A batch is the calls one after the other *)

Lemma batch_loop_results items : forall self patterns clock i acc,
  (forall message ai_analysis now,
     exists p,
       fst (calculate_priority lower self message ai_analysis patterns now) = Ok p) ->
  match patterns with
  | Some (p :: l) => set_user_patterns self (p :: l)
  | _ => self
  end = self ->
  exists ps,
    batch_loop lower self items patterns clock i acc = (Ok (acc ++ ps), self) /\
    List.length ps = List.length items /\
    forall j item,
      nth_error items j = Some item ->
      exists p,
        nth_error ps j = Some p /\
        fst (calculate_priority lower self (fst item) (snd item) patterns
               (clock (i + j)%nat)) = Ok p.
Proof.
  induction items as [ | [message analysis] items IH];
    intros self patterns clock i acc Hok Hfix.
  - exists []. rewrite app_nil_r. split; [reflexivity | ].
    split; [reflexivity | ]. intros [ | j] item H; discriminate H.
  - cbn [batch_loop].
    destruct (Hok message analysis (clock i)) as [p Hp].
    pose proof (calculate_priority_state lower self message analysis patterns
                  (clock i)) as Hstate.
    rewrite Hfix in Hstate.
    destruct (calculate_priority lower self message analysis patterns (clock i))
      as [r self'] eqn:Hcall.
    cbn [fst snd] in Hp, Hstate. subst r self'.
    destruct (IH self patterns clock (S i) (acc ++ [p]) Hok Hfix)
      as (ps & Hps & Hlen & Hnth).
    exists (p :: ps). split; [ | split].
    + rewrite Hps, <- app_assoc. reflexivity.
    + cbn [List.length]. now rewrite Hlen.
    + intros [ | j] item Hitem; cbn [nth_error] in *.
      * inversion Hitem; subst item. exists p. split; [reflexivity | ].
        cbn [fst snd]. now rewrite Nat.add_0_r, Hcall.
      * destruct (Hnth j item Hitem) as (q & Hq & Hcalc).
        exists q. split; [exact Hq | ].
        now rewrite <- Nat.add_succ_comm.
Qed.

(** X4. On a reachable calculator [batch_calculate_priorities] returns one
    score per item, in order: the score at position [j] is the one
    [calculate_priority] returns for item [j] with the same pattern list
    at the [j]-th reading of the clock. The calculator is left as one such
    call leaves it. *)
Theorem batch_is_map self items patterns clock :
  reachable lower self ->
  exists ps,
    fst (batch_calculate_priorities lower self items patterns clock) = Ok ps /\
    List.length ps = List.length items /\
    (forall j item,
       nth_error items j = Some item ->
       exists p,
         nth_error ps j = Some p /\
         fst (calculate_priority lower self (fst item) (snd item) patterns
                (clock j)) = Ok p) /\
    snd (batch_calculate_priorities lower self items patterns clock) =
      match patterns with
      | Some (p :: l) => set_user_patterns self (p :: l)
      | _ => self
      end.
Proof.
  intros Hr. unfold batch_calculate_priorities.
  set (self' := match patterns with
                | Some (p :: ps) => set_user_patterns self (p :: ps)
                | _ => self
                end).
  assert (Hr' : reachable lower self').
  { change self' with
      (snd (calculate_priority lower self alice_message plain_analysis patterns 0)).
    now apply reachable_calculate. }
  destruct (batch_loop_results items self' patterns clock 0%nat [])
    as (ps & Hps & Hlen & Hnth).
  - intros message ai_analysis now.
    apply calculate_priority_never_raises_aux. exact Hr'.
  - subst self'. destruct patterns as [[ | p l] | ]; reflexivity.
  - exists ps. rewrite Hps. cbn [fst snd app].
    split; [reflexivity | ]. split; [exact Hlen | ].
    split; [ | reflexivity].
    intros j item Hitem. destruct (Hnth j item Hitem) as (p & Hp & Hcalc).
    exists p. split; [exact Hp | ]. rewrite <- Hcalc. cbn [Nat.add].
    subst self'. unfold calculate_priority.
    destruct patterns as [[ | q l] | ]; reflexivity.
Qed.

End Extras_Calculator.

(** ** The adjusted weights *)

(** X5. For every kind of activity the adjusted weights are four numbers
    strictly between 0 and 1 whose sum, added in dictionary order, is
    within 1e-9 of 1; for a thread reply, which gets no adjustment, they
    are the default weights themselves. *)
Theorem adjusted_weights_normalised self message :
  configured self ->
  exists a b c d,
    _get_adjusted_weights self message = Ok (weights_of a b c d) /\
    Forall (fun w => (0.0 <? w)%flt = true /\ (w <? 1.0)%flt = true) [a; b; c; d] /\
    (0.999999999 <=? py_sum [a; b; c; d])%flt = true /\
    (py_sum [a; b; c; d] <=? 1.000000001)%flt = true /\
    (activity_type message = THREAD_REPLY ->
     weights_of a b c d = default_weights self).
Proof.
  intros (Hw & _).
  assert (Hcopy : _get_adjusted_weights self message =
                  _get_adjusted_weights PriorityCalculator_init message).
  { unfold _get_adjusted_weights. now rewrite Hw. }
  rewrite Hcopy, Hw. clear Hcopy Hw. unfold _get_adjusted_weights.
  destruct (activity_type message);
    match goal with
    | |- exists a b c d, ?t = _ /\ _ =>
        let v := eval vm_compute in t in
        replace t with v by (vm_compute; reflexivity)
    end;
    do 4 eexists; (split; [reflexivity | ]);
    (split; [repeat constructor | ]);
    (split; [reflexivity | ]); (split; [reflexivity | ]);
    intros H; try discriminate H; reflexivity.
Qed.

Lemma adjusted_weights_normalised_witness :
  exists a b c d,
    _get_adjusted_weights PriorityCalculator_init alice_message =
      Ok (weights_of a b c d) /\
    (0.999999999 <=? py_sum [a; b; c; d])%flt = true /\
    (py_sum [a; b; c; d] <=? 1.000000001)%flt = true.
Proof.
  destruct (adjusted_weights_normalised PriorityCalculator_init alice_message)
    as (a & b & c & d & H1 & _ & H2 & H3 & _).
  - repeat split.
  - exists a, b, c, d. auto.
Defined.

(** ** Patterns at the edges *)

Section Extras_Patterns.

Variable lower : str -> str.
Hypothesis lower_ascii : lowers_ascii lower.

Lemma unknown_kind_never_matches pattern message ai_analysis :
  mem (pattern_type pattern) pattern_kinds = false ->
  _pattern_matches lower pattern message ai_analysis = false.
Proof.
  unfold mem, pattern_kinds. cbn [existsb]. rewrite !orb_false_iff.
  intros (H1 & H2 & H3 & H4 & H5 & _).
  unfold _pattern_matches. now rewrite H1, H2, H3, H4, H5.
Qed.

(** X6. Patterns whose kind is none of sender, channel, keyword,
    work_type and time, spelled exactly so, are passed over: if the
    calculator holds no others the personal-weight score is 0.5, whatever
    their weights. *)
Theorem unknown_kinds_ignored self message ai_analysis :
  Forall (fun p => mem (pattern_type p) pattern_kinds = false)
    (user_patterns self) ->
  _apply_personal_patterns lower self message ai_analysis = 0.5%flt.
Proof.
  intros Hall. unfold _apply_personal_patterns.
  enough (H : forall base,
            fold_left
              (fun base_score pattern =>
                 if _pattern_matches lower pattern message ai_analysis
                 then (base_score +
                       weight_adjustment pattern * pattern_confidence pattern)%flt
                 else base_score)
              (user_patterns self) base = base)
    by (rewrite H; reflexivity).
  induction Hall as [ | p ps Hp _ IH]; intros base; cbn [fold_left];
    [reflexivity | ].
  now rewrite (unknown_kind_never_matches p message ai_analysis Hp).
Qed.

Lemma contains_nil (t : str) : contains [] t = true.
Proof. destruct t; reflexivity. Qed.

(** X7. A sender, channel or keyword pattern with an empty value matches
    every message. *)
Theorem empty_value_matches_all pattern message ai_analysis :
  pattern_value pattern = [] ->
  mem (pattern_type pattern) [lit "sender"; lit "channel"; lit "keyword"] = true ->
  _pattern_matches lower pattern message ai_analysis = true.
Proof.
  intros Hv Hk. unfold _pattern_matches. rewrite Hv.
  rewrite (lower_ascii []) by reflexivity. cbn [ascii_lower map].
  unfold mem in Hk. cbn [existsb] in Hk. rewrite orb_false_r in Hk.
  destruct (str_eqb (pattern_type pattern) (lit "sender"));
    [apply contains_nil | ].
  destruct (str_eqb (pattern_type pattern) (lit "channel"));
    [apply contains_nil | ].
  destruct (str_eqb (pattern_type pattern) (lit "keyword"));
    [apply contains_nil | discriminate Hk].
Qed.

(** X8. A time pattern matches no message sent from 22:00 to 05:59,
    whatever its value: the three windows cover 06:00 to 21:59 only. *)
Theorem time_pattern_never_at_night pattern message ai_analysis :
  pattern_type pattern = lit "time" ->
  hour (timestamp message) < 6 \/ 22 <= hour (timestamp message) ->
  _pattern_matches lower pattern message ai_analysis = false.
Proof.
  intros Hk Hh. unfold _pattern_matches. rewrite Hk.
  change (str_eqb (lit "time") (lit "sender")) with false.
  change (str_eqb (lit "time") (lit "channel")) with false.
  change (str_eqb (lit "time") (lit "keyword")) with false.
  change (str_eqb (lit "time") (lit "work_type")) with false.
  change (str_eqb (lit "time") (lit "time")) with true.
  cbv iota beta zeta.
  destruct (Z.leb_spec 6 (hour (timestamp message)));
    destruct (Z.ltb_spec (hour (timestamp message)) 12);
    destruct (Z.leb_spec 12 (hour (timestamp message)));
    destruct (Z.ltb_spec (hour (timestamp message)) 18);
    destruct (Z.leb_spec 18 (hour (timestamp message)));
    destruct (Z.ltb_spec (hour (timestamp message)) 22);
    rewrite ?andb_false_r, ?andb_true_r; cbn [andb];
    repeat match goal with
    | |- context [str_eqb ?a ?b] => destruct (str_eqb a b)
    end; try reflexivity; lia.
Qed.

End Extras_Patterns.

Lemma unknown_kinds_ignored_witness :
  _apply_personal_patterns ascii_lower
    (set_user_patterns PriorityCalculator_init
       [{| pattern_type := lit "Sender"; pattern_value := lit "alice";
           weight_adjustment := 0.3; pattern_confidence := 1.0;
           usage_count := 1 |}])
    alice_message plain_analysis = 0.5%flt.
Proof.
  apply (unknown_kinds_ignored ascii_lower). repeat constructor.
Defined.

Lemma empty_value_matches_all_witness :
  _pattern_matches ascii_lower (sender_pattern "" 0.3 1.0) alice_message
    plain_analysis = true.
Proof.
  apply (empty_value_matches_all ascii_lower ascii_lower_lowers_ascii);
    reflexivity.
Defined.

Lemma time_pattern_never_at_night_witness :
  _pattern_matches ascii_lower
    {| pattern_type := lit "time"; pattern_value := lit "evening";
       weight_adjustment := 0.3; pattern_confidence := 1.0; usage_count := 1 |}
    (example_message "dev" "bob" "ping" (at_time 738887 23 30 0)
       CHANNEL_MESSAGE false)
    plain_analysis = false.
Proof.
  apply (time_pattern_never_at_night ascii_lower); [reflexivity | ].
  right. vm_compute. discriminate.
Defined.

(** ** Sender authority is at least 0.4 *)

(** X9. The sender-authority score is never below 0.4: the lowest sum is
    that of a plain channel message in a general channel during working
    hours. *)
Theorem sender_authority_floor (lower : str -> str) self message :
  (0.4 <=? _calculate_sender_authority_score lower self message)%flt = true.
Proof.
  unfold _calculate_sender_authority_score.
  destruct (activity_type message);
    destruct (any_in _ (lower (channel_name message)));
    try destruct (any_in _ (lower (channel_name message)));
    try destruct (any_in _ (lower (channel_name message)));
    destruct ((hour (timestamp message) <? wh_start (working_hours self)) ||
              (wh_end (working_hours self) <? hour (timestamp message)));
    reflexivity.
Qed.

(** ** Replies the adapters accept and reject *)

Lemma WorkType_of_value_spec (v : str) (w : WorkType) :
  WorkType_of_value v = Ok w <-> v = WorkType_value w.
Proof.
  unfold WorkType_of_value, WorkType_members. cbn [find]. split.
  - repeat match goal with
    | |- context [str_eqb v ?x] =>
        let E := fresh "E" in
        destruct (str_eqb v x) eqn:E;
        [apply str_eqb_eq in E;
         intros H; inversion H; subst; reflexivity | clear E]
    end.
    discriminate.
  - intros ->. destruct w; reflexivity.
Qed.

(** X10. [WorkType(v)] finds the member whose value is [v] and no other:
    it returns [w] exactly when [v] is the value of [w], and raises
    [ValueError] when [v] is the value of none. *)
Theorem WorkType_of_value_iff (v : str) :
  (forall w, WorkType_of_value v = Ok w <-> v = WorkType_value w) /\
  ((forall w, v <> WorkType_value w) -> WorkType_of_value v = Raise ValueError).
Proof.
  split; [intros w; apply WorkType_of_value_spec | ].
  intros Hnone. unfold WorkType_of_value.
  destruct (find _ WorkType_members) as [w | ] eqn:Hfind; [ | reflexivity].
  apply find_some in Hfind. destruct Hfind as [_ Heq].
  apply str_eqb_eq in Heq. now destruct (Hnone w).
Qed.

Section Extras_Adapters.

Variable lower : str -> str.
Variable json_loads : str -> option json.
Variable as_bool : json -> option bool.
Variable as_float : json -> option float.
Variable as_int : json -> option Z.
Variable as_str : json -> option str.
Variable as_str_list : json -> option (list str).

Local Abbreviation content_analysis :=
  (analysis_of_content json_loads as_bool as_float as_int as_str as_str_list).
Local Abbreviation quick_attempt :=
  (quick_classify_attempt json_loads as_bool as_float as_int as_str as_str_list).
Local Abbreviation quick :=
  (quick_classify lower json_loads as_bool as_float as_int as_str as_str_list).
Local Abbreviation deep :=
  (deep_analyze lower json_loads as_bool as_float as_int as_str as_str_list).

(** X11. A reply that decodes to the empty JSON object is accepted and
    completed with the defaults of the tier that asked: not actionable,
    urgency 0.5, category other, tone neutral, no keywords, and simple,
    10 minutes, confidence 0.7 for the cheap tier or medium, 20 minutes,
    confidence 0.8 for the deep tier. *)
Theorem empty_object_gets_defaults content :
  accepts_exact as_bool as_float as_int as_str as_str_list ->
  json_loads content = Some (JDict []) ->
  (forall self message,
     quick self message (Completed content) = Ok (quick_defaults self)) /\
  (forall self message getenv openai_reply,
     deep self message (Completed content) getenv openai_reply =
     Ok (deep_defaults self)).
Proof.
  intros (Hb & Hf & Hi & Hs & Hl) Hjson.
  split; intros; unfold quick_classify, deep_analyze, quick_classify_attempt,
    deep_analyze_attempt, analysis_of_content; rewrite Hjson;
    cbn [dict_get WorkType_of_value]; rewrite Hb, !Hf, Hi, !Hs, Hl;
    reflexivity.
Qed.

(** A reply in which a number is out of range makes the constructor, if
    it is reached, refuse. *)
Lemma content_analysis_refused content d u dc dm dconf dr model :
  json_loads content = Some (JDict d) ->
  as_float (dict_get d (lit "urgency_score") (JFloat 0.5)) = Some u ->
  in_unit u = false ->
  exists e, content_analysis content dc dm dconf dr model = Raise e.
Proof.
  intros Hjson Hu Hrange. unfold analysis_of_content. rewrite Hjson, Hu.
  repeat match goal with
  | |- exists e, bind ?m _ = Raise e =>
      destruct m; cbn [bind validated]; [ | eexists; reflexivity]
  | |- exists e, bind (validated ?o) _ = Raise e =>
      destruct o; cbn [bind validated]; [ | eexists; reflexivity]
  end.
  unfold AIAnalysis_new, AIAnalysis_valid. cbn [urgency_score].
  rewrite Hrange. cbn [andb]. eexists; reflexivity.
Qed.

(** X12. A reply whose urgency, as validated, lies outside [0,1] is not
    clamped: [quick_classify] discards the whole reply and returns the
    heuristic result. *)
Theorem out_of_range_reply_discarded self message content d u :
  json_loads content = Some (JDict d) ->
  as_float (dict_get d (lit "urgency_score") (JFloat 0.5)) = Some u ->
  in_unit u = false ->
  quick self message (Completed content) = Ok (heuristic_result lower message).
Proof.
  intros Hjson Hu Hrange.
  destruct (content_analysis_refused content d u (lit "simple") 10 0.7
              (lit "Quick AI classification") (openai_model self)
              Hjson Hu Hrange) as [e He].
  unfold quick_classify, quick_classify_attempt, try_except. rewrite He.
  apply create_fallback_analysis_ok.
Qed.

(** X13. A reply whose work_type is not the value of a member, or not a
    string, is discarded whole as well: the other fields it carries are
    lost and [quick_classify] returns the heuristic result. *)
Theorem unknown_work_type_discarded self message content d :
  json_loads content = Some (JDict d) ->
  (forall w, dict_get d (lit "work_type") (JStr (lit "other")) <>
             JStr (WorkType_value w)) ->
  quick self message (Completed content) = Ok (heuristic_result lower message).
Proof.
  intros Hjson Hw.
  assert (He : exists e, quick_attempt self (Completed content) = Raise e).
  { unfold quick_classify_attempt, analysis_of_content. rewrite Hjson.
    destruct (dict_get d (lit "work_type") (JStr (lit "other")))
      as [ | | | | v | | ] eqn:Hget; cbn [bind]; try (eexists; reflexivity).
    destruct (WorkType_of_value v) as [w | e] eqn:Hv;
      [ | eexists; reflexivity].
    apply WorkType_of_value_spec in Hv. subst v. now destruct (Hw w). }
  destruct He as [e He].
  unfold quick_classify, try_except. rewrite He.
  apply create_fallback_analysis_ok.
Qed.

End Extras_Adapters.

Lemma empty_object_gets_defaults_witness :
  quick_classify ascii_lower empty_object_json strict_bool strict_float
    strict_int strict_str strict_str_list example_openai long_message
    (Completed (lit "{}")) = Ok (quick_defaults example_openai).
Proof.
  apply (proj1 (empty_object_gets_defaults ascii_lower empty_object_json
                  strict_bool strict_float strict_int strict_str
                  strict_str_list (lit "{}")
                  (conj (fun b => eq_refl)
                     (conj (fun f => eq_refl)
                        (conj (fun z => eq_refl)
                           (conj (fun s => eq_refl) eq_refl))))
                  eq_refl)).
Defined.

Lemma out_of_range_reply_discarded_witness :
  quick_classify ascii_lower overshooting_json strict_bool strict_float
    strict_int strict_str strict_str_list example_openai long_message
    (Completed (lit "{}")) = Ok (heuristic_result ascii_lower long_message).
Proof.
  apply (out_of_range_reply_discarded ascii_lower overshooting_json
           strict_bool strict_float strict_int strict_str strict_str_list
           example_openai long_message (lit "{}")
           [(lit "urgency_score", JFloat 1.5)] 1.5 eq_refl eq_refl eq_refl).
Defined.

Lemma unknown_work_type_discarded_witness :
  quick_classify ascii_lower odd_work_type_json strict_bool strict_float
    strict_int strict_str strict_str_list example_openai long_message
    (Completed (lit "{}")) = Ok (heuristic_result ascii_lower long_message).
Proof.
  apply (unknown_work_type_discarded ascii_lower odd_work_type_json
           strict_bool strict_float strict_int strict_str strict_str_list
           example_openai long_message (lit "{}")
           [(lit "work_type", JStr (lit "chore"))] eq_refl).
  intros w. destruct w; discriminate.
Defined.

(** ** Client construction *)

(** X14. [OpenAIClient(api_key)] takes the argument when it is a non-empty
    string and the OPENAI_API_KEY variable otherwise, and raises
    [ValueError] exactly when neither is a non-empty string; the model is
    DEFAULT_AI_MODEL, or gpt-4o-mini when that variable is unset. *)
Theorem OpenAIClient_init_key getenv api_key :
  match usable_key api_key, usable_key (getenv "OPENAI_API_KEY"%string) with
  | Some k, _ | None, Some k =>
      OpenAIClient_init getenv api_key =
      Ok {| openai_api_key := k;
            openai_model :=
              match getenv "DEFAULT_AI_MODEL"%string with
              | Some m => m
              | None => lit "gpt-4o-mini"
              end |}
  | None, None => OpenAIClient_init getenv api_key = Raise ValueError
  end.
Proof.
  unfold OpenAIClient_init, require_key, usable_key, getenv_default.
  destruct api_key as [[ | c k] | ];
    destruct (getenv "OPENAI_API_KEY"%string) as [[ | c' k'] | ]; reflexivity.
Qed.

(** ** The engine's counters *)

Section Extras_Engine.

Variable lower : str -> str.
Variable json_loads : str -> option json.
Variable as_bool : json -> option bool.
Variable as_float : json -> option float.
Variable as_int : json -> option Z.
Variable as_str : json -> option str.
Variable as_str_list : json -> option (list str).

Local Abbreviation analyze :=
  (analyze_message lower json_loads as_bool as_float as_int as_str as_str_list).
Local Abbreviation tasks :=
  (run_tasks lower json_loads as_bool as_float as_int as_str as_str_list).
Local Abbreviation batch :=
  (analyze_batch lower json_loads as_bool as_float as_int as_str as_str_list).
Local Abbreviation deep :=
  (deep_analyze lower json_loads as_bool as_float as_int as_str as_str_list).

Lemma analyze_message_state self message world o c t :
  usage_stats self = stats_of o c t ->
  usage_stats (snd (analyze self message world)) =
    (if should_use_complex_model lower (router self) message
     then stats_of o (c + 1) t else stats_of (o + 1) c t) /\
  router (snd (analyze self message world)) = router self /\
  openai_client (snd (analyze self message world)) = openai_client self /\
  claude_client (snd (analyze self message world)) = claude_client self.
Proof.
  intros Hs. unfold analyze_message, count_call. rewrite Hs.
  destruct (should_use_complex_model lower (router self) message);
    cbn; repeat split.
Qed.

(** X15. Each call of [analyze_message] adds one to exactly one counter,
    [claude_calls] when the router chooses the complex model and
    [openai_calls] otherwise, and changes nothing else in the engine. A
    Claude call that fails and is answered through OpenAI is counted as a
    Claude call only. *)
Theorem analyze_message_counts self message world o c t :
  usage_stats self = stats_of o c t ->
  usage_stats (snd (analyze self message world)) =
    (if should_use_complex_model lower (router self) message
     then stats_of o (c + 1) t else stats_of (o + 1) c t) /\
  router (snd (analyze self message world)) = router self /\
  openai_client (snd (analyze self message world)) = openai_client self /\
  claude_client (snd (analyze self message world)) = claude_client self.
Proof.
  intros Hs. unfold analyze_message, count_call. rewrite Hs.
  destruct (should_use_complex_model lower (router self) message);
    cbn; repeat split.
Qed.

Lemma deep_analyze_returns self message world :
  has_openai_key (environment world) ->
  exists r,
    deep self message (claude_reply world) (environment world)
      (openai_reply world) = Ok r.
Proof.
  intros [client Hc]. unfold deep_analyze, try_except.
  destruct (deep_analyze_attempt _ _ _ _ _ _ _ _) as [r | e];
    [now exists r | ].
  rewrite Hc. cbn [bind].
  destruct (quick_classify_total lower json_loads as_bool as_float as_int
              as_str as_str_list client message (openai_reply world))
    as (r & Hr & _).
  now exists r.
Qed.

Lemma analyze_message_returns self message world o c t :
  usage_stats self = stats_of o c t ->
  should_use_complex_model lower (router self) message = false \/
  has_openai_key (environment world) ->
  exists r, fst (analyze self message world) = Ok r.
Proof.
  intros Hs Hkey. unfold analyze_message, count_call. rewrite Hs.
  destruct (should_use_complex_model lower (router self) message) eqn:Hroute;
    cbn [Dict.getitem String.eqb Ascii.eqb Bool.eqb bind fst].
  - destruct Hkey as [Hkey | Hkey]; [discriminate Hkey | ].
    apply deep_analyze_returns. exact Hkey.
  - destruct (quick_classify_total lower json_loads as_bool as_float as_int
                as_str as_str_list (openai_client self) message
                (openai_reply world)) as (r & Hr & _).
    now exists r.
Qed.

Lemma run_tasks_spec messages : forall self worlds i acc o c t,
  usage_stats self = stats_of o c t ->
  exists new o' c',
    fst (tasks self messages worlds i acc) = acc ++ new /\
    (List.length new <= List.length messages)%nat /\
    usage_stats (snd (tasks self messages worlds i acc)) = stats_of o' c' t /\
    o' + c' = o + c + Z.of_nat (List.length messages) /\
    ((forall k, has_openai_key (environment (worlds k))) ->
     map fst new = messages).
Proof.
  induction messages as [ | message messages IH];
    intros self worlds i acc o c t Hs.
  - exists [], o, c. cbn. rewrite app_nil_r. repeat split; auto; lia.
  - cbn [run_tasks].
    destruct (analyze_message_state self message (worlds i) o c t Hs)
      as (Hstats & _).
    pose proof (analyze_message_returns self message (worlds i) o c t Hs) as Hret.
    destruct (analyze self message (worlds i)) as [[analysis | e] self'];
      cbn [fst snd] in Hstats, Hret.
    + destruct (should_use_complex_model lower (router self) message);
        destruct (IH self' worlds (S i) (acc ++ [(message, analysis)]) _ _ _ Hstats)
          as (new & o' & c' & Hnew & Hlen & Hst & Hsum & Hall);
        exists ((message, analysis) :: new), o', c';
        (split; [rewrite Hnew, <- app_assoc; reflexivity | ]);
        cbn [List.length map fst]; repeat split; try lia; auto;
        intros Hk; now rewrite (Hall Hk).
    + destruct (should_use_complex_model lower (router self) message);
        destruct (IH self' worlds (S i) acc _ _ _ Hstats)
          as (new & o' & c' & Hnew & Hlen & Hst & Hsum & Hall);
        exists new, o', c';
        (split; [exact Hnew | ]);
        cbn [List.length]; repeat split; try lia; auto;
        intros Hk;
        (destruct Hret as [r Hr]; [auto | discriminate Hr]).
Qed.

Lemma analyze_batch_spec self messages max_concurrent worlds o c t :
  1 <= max_concurrent ->
  usage_stats self = stats_of o c t ->
  exists results o' c',
    fst (batch self messages max_concurrent worlds) = Returns results /\
    (List.length results <= List.length messages)%nat /\
    usage_stats (snd (batch self messages max_concurrent worlds)) =
      stats_of o' c' t /\
    o' + c' = o + c + Z.of_nat (List.length messages) /\
    ((forall k, has_openai_key (environment (worlds k))) ->
     map fst results = messages).
Proof.
  intros Hmax Hs. unfold analyze_batch.
  destruct (Z.ltb_spec max_concurrent 0); [lia | ].
  destruct messages as [ | message messages].
  - exists [], o, c. cbn. repeat split; auto; lia.
  - destruct (Z.eqb_spec max_concurrent 0); [lia | ].
    destruct (run_tasks_spec (message :: messages) self worlds 0%nat [] o c t Hs)
      as (new & o' & c' & Hnew & Hlen & Hst & Hsum & Hall).
    destruct (tasks self (message :: messages) worlds 0%nat []) as [res self'].
    cbn [fst snd app] in *. subst res.
    exists new, o', c'. auto.
Qed.

(** X16. With room for at least one call at a time, [analyze_batch]
    returns; it counts one call for every message of the batch, kept or
    dropped, leaves [total_tokens] alone, and returns at most one pair per
    message. When every task can build an OpenAI client, no message is
    dropped and the pairs come in the order of the messages. *)
Theorem analyze_batch_counts self messages max_concurrent worlds o c t :
  1 <= max_concurrent ->
  usage_stats self = stats_of o c t ->
  exists results o' c',
    fst (batch self messages max_concurrent worlds) = Returns results /\
    (List.length results <= List.length messages)%nat /\
    usage_stats (snd (batch self messages max_concurrent worlds)) =
      stats_of o' c' t /\
    o' + c' = o + c + Z.of_nat (List.length messages) /\
    ((forall k, has_openai_key (environment (worlds k))) ->
     map fst results = messages).
Proof.
  intros Hmax Hs. unfold analyze_batch.
  destruct (Z.ltb_spec max_concurrent 0); [lia | ].
  destruct messages as [ | message messages].
  - exists [], o, c. cbn. repeat split; auto; lia.
  - destruct (Z.eqb_spec max_concurrent 0); [lia | ].
    destruct (run_tasks_spec (message :: messages) self worlds 0%nat [] o c t Hs)
      as (new & o' & c' & Hnew & Hlen & Hst & Hsum & Hall).
    destruct (tasks self (message :: messages) worlds 0%nat []) as [res self'].
    cbn [fst snd app] in *. subst res.
    exists new, o', c'. auto.
Qed.

End Extras_Engine.

Lemma analyze_message_counts_witness :
  usage_stats
    (snd (analyze_message ascii_lower no_json strict_bool strict_float
            strict_int strict_str strict_str_list example_engine long_message
            failing_world)) = stats_of 0 1 0.
Proof.
  apply (proj1 (analyze_message_counts ascii_lower no_json strict_bool
                  strict_float strict_int strict_str strict_str_list
                  example_engine long_message failing_world 0 0 0 eq_refl)).
Defined.

Lemma analyze_batch_counts_witness :
  exists results o' c',
    fst (analyze_batch ascii_lower no_json strict_bool strict_float
           strict_int strict_str strict_str_list example_engine
           [long_message; alice_message] 5 (fun _ => failing_world))
      = Returns results /\
    (List.length results <= 2)%nat /\
    usage_stats
      (snd (analyze_batch ascii_lower no_json strict_bool strict_float
              strict_int strict_str strict_str_list example_engine
              [long_message; alice_message] 5 (fun _ => failing_world)))
      = stats_of o' c' 0 /\
    o' + c' = 0 + 0 + 2 /\
    ((forall k : nat, has_openai_key (environment failing_world)) ->
     map fst results = [long_message; alice_message]).
Proof.
  apply (analyze_batch_counts ascii_lower no_json strict_bool strict_float
           strict_int strict_str strict_str_list example_engine
           [long_message; alice_message] 5 (fun _ => failing_world) 0 0 0).
  - lia.
  - reflexivity.
Defined.

(** ** Todo lists *)

(** X17. [add_item] puts the item last and recounts: afterwards
    [total_items] is the number of items, at least one, and
    [completed_items] the number of completed ones, whatever the counters
    held before. *)
Theorem add_item_recounts (self : TodoList) (item : TodoItem) (now : datetime) :
  items (add_item self item now) = items self ++ [item] /\
  total_items (add_item self item now) =
    Z.of_nat (List.length (items (add_item self item now))) /\
  completed_items (add_item self item now) =
    count_completed (items (add_item self item now)) /\
  0 <= completed_items (add_item self item now)
    <= total_items (add_item self item now) /\
  1 <= total_items (add_item self item now).
Proof.
  unfold add_item, count_completed.
  cbn [items total_items completed_items].
  pose proof (filter_length_le completed (items self ++ [item])) as Hle.
  rewrite length_app in *. cbn [List.length] in *.
  repeat split; lia.
Qed.

Lemma filter_levels_length (l : list TodoItem) :
  (List.length (filter (fun i => Priority_eqb (TodoItem_priority i) URGENT) l) +
   List.length (filter (fun i => Priority_eqb (TodoItem_priority i) HIGH) l) +
   List.length (filter (fun i => Priority_eqb (TodoItem_priority i) MEDIUM) l) +
   List.length (filter (fun i => Priority_eqb (TodoItem_priority i) LOW) l)
   = List.length l)%nat.
Proof.
  induction l as [ | i l IH]; [reflexivity | ].
  cbn [filter]. destruct (TodoItem_priority i); cbn [Priority_eqb List.length]; lia.
Qed.

(** X18. [get_by_priority] returns, in list order, exactly the items of
    the asked level, and the four levels share out the list: the four
    counts add up to the number of items. *)
Theorem get_by_priority_partitions (self : TodoList) :
  (forall priority item,
     In item (get_by_priority self priority) <->
     In item (items self) /\ TodoItem_priority item = priority) /\
  (List.length (get_by_priority self URGENT) +
   List.length (get_by_priority self HIGH) +
   List.length (get_by_priority self MEDIUM) +
   List.length (get_by_priority self LOW)
   = List.length (items self))%nat.
Proof.
  split; [ | apply filter_levels_length].
  intros priority item. unfold get_by_priority. rewrite filter_In.
  destruct (TodoItem_priority item), priority; cbn [Priority_eqb];
    intuition congruence.
Qed.

(** ** The todo generator *)

Lemma contains_single (c : char) (t : str) :
  contains [c] t = true <-> In c t.
Proof.
  induction t as [ | d t IH]; cbn [contains startswith In].
  - split; [discriminate | tauto].
  - rewrite orb_true_iff, andb_true_r, N.eqb_eq, IH.
    split; intros [H | H]; auto.
Qed.

Lemma lstrip_keeps (c : char) (t : str) :
  is_space c = false -> (In c (lstrip t) <-> In c t).
Proof.
  intros Hc. induction t as [ | d t IH]; cbn [lstrip]; [tauto | ].
  destruct (is_space d) eqn:Hd; [ | tauto].
  rewrite IH. cbn [In]. split; [auto | ].
  intros [-> | H]; [congruence | exact H].
Qed.

Lemma strip_keeps (c : char) (t : str) :
  is_space c = false -> (In c (strip t) <-> In c t).
Proof.
  intros Hc. unfold strip.
  rewrite <- in_rev, (lstrip_keeps c _ Hc), <- in_rev.
  apply lstrip_keeps. exact Hc.
Qed.

Lemma descending_keys {A : Type} (key : A -> float) (l : list (A * float)) :
  Forall (fun x => snd x = key (fst x)) l ->
  descending l ->
  StronglySorted (fun a b => (key a <? key b)%flt = false) (map fst l).
Proof.
  unfold descending. induction l as [ | x l IH]; intros Hkey Hdesc; cbn [map];
    [constructor | ].
  inversion Hkey as [ | ? ? Hkx Hkl]; subst.
  inversion Hdesc as [ | ? ? Hl Hx]; subst.
  constructor; [now apply IH | ].
  rewrite Forall_forall in *. intros t Ht.
  apply in_map_iff in Ht. destruct Ht as (y & <- & Hy).
  rewrite <- Hkx, <- (Hkl y Hy). now apply Hx.
Qed.

Section Extras_Generator.

Variable lower : str -> str.
Variable _generate_description :
  SlackMessage -> AIAnalysis -> PriorityScore -> str.
Variable strftime_minute : datetime -> str.
Variable uuid4 : nat -> str.
Variable list_of_set : list str -> list str.

(** X19. A question mark anywhere in the text decides the title: the todo
    is an answer owed to the sender, whatever keywords the text holds and
    whatever the analysis says. *)
Theorem question_mark_decides_title message analysis :
  contains (lit "?") (text message) = true ->
  _generate_title lower message analysis = answer_title (username message).
Proof.
  intros H. unfold _generate_title, answer_title. cbv zeta.
  assert (E : contains (lit "?") (strip (text message)) = true).
  { apply (contains_single 63%N). apply (strip_keeps 63%N _ eq_refl).
    apply (contains_single 63%N). exact H. }
  now rewrite E.
Qed.

(** X20. The tags hold "urgent" exactly when the urgency exceeds 0.8 and
    "important" exactly when it exceeds 0.6 but not 0.8, "quick" exactly
    when the estimate is at most 15 minutes and "deep-work" exactly when
    it is at least 60; with the four tags every todo gets, that makes
    four to six tags. *)
Theorem generate_tags_marks message analysis :
  (In (lit "urgent") (_generate_tags message analysis) <->
   (0.8 <? urgency_score analysis)%flt = true) /\
  (In (lit "important") (_generate_tags message analysis) <->
   (0.8 <? urgency_score analysis)%flt = false /\
   (0.6 <? urgency_score analysis)%flt = true) /\
  (In (lit "quick") (_generate_tags message analysis) <->
   estimated_time_minutes analysis <= 15) /\
  (In (lit "deep-work") (_generate_tags message analysis) <->
   60 <= estimated_time_minutes analysis) /\
  (4 <= List.length (_generate_tags message analysis) <= 6)%nat.
Proof.
  unfold _generate_tags.
  destruct (0.8 <? urgency_score analysis)%flt;
    destruct (0.6 <? urgency_score analysis)%flt;
    destruct (Z.leb_spec (estimated_time_minutes analysis) 15);
    destruct (Z.leb_spec 60 (estimated_time_minutes analysis));
    try lia;
    cbn [app In List.length];
    repeat split; try lia; try congruence; auto 10;
    intros; try lia;
    repeat match goal with
    | H : _ /\ _ |- _ => destruct H
    | H : _ \/ _ |- _ => destruct H
    | H : False |- _ => destruct H
    | H : _ ++ _ = _ |- _ => discriminate H
    | H : _ = _ |- _ => discriminate H
    end.
Qed.

Lemma collect_todos_sources analyzed : forall n todos models,
  map todo_source
    (fst (collect_todos lower _generate_description uuid4 analyzed n todos models))
  = map todo_source todos ++ filter actionable analyzed.
Proof.
  induction analyzed as [ | [[message analysis] priority] rest IH];
    intros n todos models; cbn [collect_todos filter].
  - now rewrite app_nil_r.
  - unfold actionable at 1. cbn [fst snd].
    destruct (action_required analysis).
    + rewrite IH, map_app, <- app_assoc. reflexivity.
    + apply IH.
Qed.

Lemma sort_todos_sorts (todos : list TodoItem) :
  Permutation (sort_todos todos) todos /\ by_score_descending (sort_todos todos).
Proof.
  unfold sort_todos.
  set (decorate := fun t : TodoItem => (t, final_score (priority_score t))).
  destruct (sorted_desc_perm_descending (map decorate todos)) as [Hperm Hdesc].
  split.
  - rewrite Hperm, map_map. cbn [fst decorate]. now rewrite map_id.
  - apply (descending_keys (fun t => final_score (priority_score t)));
      [ | exact Hdesc].
    rewrite Forall_forall. intros x Hx.
    apply (Permutation_in _ Hperm) in Hx. apply in_map_iff in Hx.
    destruct Hx as (t & <- & _). reflexivity.
Qed.

Lemma generate_todo_list_facts analyzed title n now created :
  let l :=
    generate_todo_list lower _generate_description strftime_minute uuid4
      list_of_set analyzed title n now created in
  Permutation (map todo_source (items l)) (filter actionable analyzed) /\
  by_score_descending (items l) /\
  Forall (fun t => completed t = false) (items l) /\
  total_items l = Z.of_nat (List.length (items l)) /\
  completed_items l = 0.
Proof.
  unfold generate_todo_list.
  pose proof (collect_todos_sources analyzed n [] []) as Hsrc.
  assert (Hdone : forall analyzed n todos models,
            Forall (fun t => completed t = false) todos ->
            Forall (fun t => completed t = false)
              (fst (collect_todos lower _generate_description uuid4 analyzed n
                      todos models))).
  { clear. induction analyzed as [ | [[m a] p] rest IH]; intros n todos models H;
      cbn [collect_todos]; [exact H | ].
    destruct (action_required a); apply IH; [ | exact H].
    apply Forall_app. split; [exact H | repeat constructor]. }
  specialize (Hdone analyzed n [] [] (Forall_nil _)).
  destruct (collect_todos lower _generate_description uuid4 analyzed n [] [])
    as [todos models]. cbn [fst map app] in Hsrc, Hdone.
  destruct (sort_todos_sorts todos) as [Hperm Hsorted].
  cbn [items total_items completed_items].
  split; [ | split; [exact Hsorted | split; [ | split; reflexivity]]].
  - rewrite <- Hsrc. apply Permutation_map. exact Hperm.
  - rewrite Forall_forall in *. intros t Ht. apply Hdone.
    apply (Permutation_in _ Hperm). exact Ht.
Qed.

(** X21. The list [generate_todo_list] builds holds one todo for each
    analysed message that requires action and none for the others; its
    todos are in descending order of final score and none is completed;
    [total_items] is their number and [completed_items] is 0. *)
Theorem generate_todo_list_items analyzed title n now created :
  let l :=
    generate_todo_list lower _generate_description strftime_minute uuid4
      list_of_set analyzed title n now created in
  Permutation (map todo_source (items l)) (filter actionable analyzed) /\
  by_score_descending (items l) /\
  Forall (fun t => completed t = false) (items l) /\
  total_items l = Z.of_nat (List.length (items l)) /\
  completed_items l = 0.
Proof.
  unfold generate_todo_list.
  pose proof (collect_todos_sources analyzed n [] []) as Hsrc.
  assert (Hdone : forall analyzed n todos models,
            Forall (fun t => completed t = false) todos ->
            Forall (fun t => completed t = false)
              (fst (collect_todos lower _generate_description uuid4 analyzed n
                      todos models))).
  { clear. induction analyzed as [ | [[m a] p] rest IH]; intros n todos models H;
      cbn [collect_todos]; [exact H | ].
    destruct (action_required a); apply IH; [ | exact H].
    apply Forall_app. split; [exact H | repeat constructor]. }
  specialize (Hdone analyzed n [] [] (Forall_nil _)).
  destruct (collect_todos lower _generate_description uuid4 analyzed n [] [])
    as [todos models]. cbn [fst map app] in Hsrc, Hdone.
  destruct (sort_todos_sorts todos) as [Hperm Hsorted].
  cbn [items total_items completed_items].
  split; [ | split; [exact Hsorted | split; [ | split; reflexivity]]].
  - rewrite <- Hsrc. apply Permutation_map. exact Hperm.
  - rewrite Forall_forall in *. intros t Ht. apply Hdone.
    apply (Permutation_in _ Hperm). exact Ht.
Qed.

End Extras_Generator.

Lemma question_mark_decides_title_witness :
  _generate_title ascii_lower question_message plain_analysis =
  answer_title (lit "bob").
Proof.
  apply (question_mark_decides_title ascii_lower question_message plain_analysis).
  reflexivity.
Defined.

Example add_item_repairs_counters :
  total_items (add_item stale_list (example_todo 0.3 LOW false) tuesday_ten) = 2 /\
  completed_items (add_item stale_list (example_todo 0.3 LOW false) tuesday_ten) = 1.
Proof. split; reflexivity. Qed.

(** ** The orchestrated run *)

Section Extras_Orchestrator.

Variable lower : str -> str.
Variable json_loads : str -> option json.
Variable as_bool : json -> option bool.
Variable as_float : json -> option float.
Variable as_int : json -> option Z.
Variable as_str : json -> option str.
Variable as_str_list : json -> option (list str).
Variable _generate_description :
  SlackMessage -> AIAnalysis -> PriorityScore -> str.
Variable strftime_minute : datetime -> str.
Variable uuid4 : nat -> str.
Variable list_of_set : list str -> list str.
Variable str_of_exn : exn -> str.

Local Abbreviation process :=
  (process_slack_activities lower json_loads as_bool as_float as_int as_str
     as_str_list _generate_description strftime_minute uuid4 list_of_set
     str_of_exn).

Lemma prioritize_spec calculator clock :
  configured calculator ->
  user_patterns calculator = [] ->
  forall analyzed i acc,
  exists new,
    prioritize lower calculator analyzed [] clock i acc =
      (Ok (acc ++ new), calculator) /\
    map fst new = analyzed /\
    Forall (fun x => personal_weight_score (snd x) = 0.5%flt) new.
Proof.
  intros Hcfg Hnone.
  induction analyzed as [ | [message analysis] rest IH]; intros i acc.
  - exists []. cbn. rewrite app_nil_r. auto.
  - cbn [prioritize]. unfold calculate_priority.
    destruct (score_message_ok lower calculator message analysis (clock i) Hcfg)
      as (p & Hp & _ & _ & _ & _ & _ & Hpers & _).
    rewrite Hp.
    destruct (IH (S i) (acc ++ [(message, analysis, p)])) as (new & Hnew & Hmap & Hall).
    exists ((message, analysis, p) :: new). split; [ | split].
    + rewrite Hnew, <- app_assoc. reflexivity.
    + cbn [map fst]. now rewrite Hmap.
    + constructor; [ | exact Hall]. cbn [snd]. rewrite Hpers.
      unfold _apply_personal_patterns. rewrite Hnone. reflexivity.
Qed.

Lemma slice_to_length {A : Type} (l : list A) (k : Z) :
  0 <= k -> len_list (slice_to l k) <= k.
Proof.
  intros Hk. unfold slice_to, len_list.
  destruct (Z.leb_spec 0 k); [ | lia].
  rewrite length_firstn. lia.
Qed.

(** X22. A run of [process_slack_activities] on an orchestrator as
    constructed returns a list and leaves the orchestrator as
    constructed but for the counters. The list's todos all require
    action, are in descending order of final score, number at most
    [max_messages] when that is not negative, and each has the
    personal-weight score 0.5: the orchestrator's pattern list is empty
    and stays so, hence no learned pattern ever enters a run. *)
Theorem process_applies_no_pattern self max_messages collected worlds clock
    now created n :
  pristine self ->
  exists l,
    fst (process self max_messages collected worlds clock now created n)
      = Returns l /\
    Forall
      (fun t =>
         action_required (ai_analysis t) = true /\
         personal_weight_score (priority_score t) = 0.5%flt)
      (items l) /\
    by_score_descending (items l) /\
    (0 <= max_messages -> len_list (items l) <= max_messages) /\
    pristine (snd (process self max_messages collected worlds clock now created n)).
Proof.
  intros Hp. unfold process_slack_activities.
  assert (Hbare : forall id ti de cr,
            Forall
              (fun t =>
                 action_required (ai_analysis t) = true /\
                 personal_weight_score (priority_score t) = 0.5%flt)
              (items (bare_list id ti de cr)) /\
            by_score_descending (items (bare_list id ti de cr)) /\
            (0 <= max_messages ->
             len_list (items (bare_list id ti de cr)) <= max_messages)).
  { intros. cbn [items bare_list]. repeat split; auto; constructor. }
  destruct collected as [[ | message activities] | e].
  - eexists. split; [reflexivity | ]. cbn [fst snd].
    destruct (Hbare (uuid4 n) [48712; 32; 54624; 51068; 32; 47785; 47197]%N
                [48516; 49437; 54624; 32; 54876; 46041; 51060; 32; 50630; 49845;
                 45768; 45796; 46]%N created) as (H1 & H2 & H3).
    auto.
  - set (chosen := if max_messages <? len_list (message :: activities)
                   then slice_to (message :: activities) max_messages
                   else message :: activities).
    assert (Hlen : 0 <= max_messages -> len_list chosen <= max_messages).
    { intros Hk. subst chosen.
      destruct (Z.ltb_spec max_messages (len_list (message :: activities)));
        [now apply slice_to_length | lia]. }
    destruct Hp as (Hmine & Hcfg & Hnone & o & c & t & Hstats).
    destruct (analyze_batch_spec lower json_loads as_bool as_float as_int as_str
                as_str_list (ai_engine self) chosen 5 worlds o c t
                ltac:(lia) Hstats)
      as (analyzed & o' & c' & Hret & Hlen' & Hstats' & _).
    destruct (analyze_batch lower json_loads as_bool as_float as_int as_str
                as_str_list (ai_engine self) chosen 5 worlds)
      as [out engine]. cbn [fst snd] in Hret, Hstats'. subst out.
    rewrite Hmine.
    destruct (prioritize_spec (priority_calculator self) clock Hcfg Hnone
                analyzed 0%nat []) as (prioritized & Hpri & Hmap & Hall).
    rewrite Hpri. cbn [app fst snd].
    destruct (generate_todo_list_facts lower _generate_description
                strftime_minute uuid4 list_of_set prioritized None n now created)
      as (Hperm & Hsorted & _ & _ & _).
    eexists. split; [reflexivity | ].
    split; [ | split; [exact Hsorted | split]].
    + rewrite Forall_forall. intros todo Hin.
      apply (in_map todo_source) in Hin.
      apply (Permutation_in _ Hperm) in Hin. apply filter_In in Hin.
      destruct Hin as [Hin Hact]. unfold actionable, todo_source in *.
      cbn [fst snd] in Hact. split; [exact Hact | ].
      rewrite Forall_forall in Hall. apply (Hall _ Hin).
    + intros Hk. specialize (Hlen Hk).
      pose proof (Permutation_length Hperm) as Hl. rewrite !length_map in Hl.
      pose proof (filter_length_le actionable prioritized) as Hf.
      assert (List.length prioritized = List.length analyzed)
        by (rewrite <- Hmap; now rewrite length_map).
      unfold len_list in *. lia.
    + unfold pristine. cbn [morgan_user_patterns priority_calculator ai_engine].
      repeat split; try apply Hcfg; auto. now exists o', c', t.
  - eexists. split; [reflexivity | ]. cbn [fst snd].
    destruct (Hbare (uuid4 n)
                [50724; 47448; 32; 45; 32; 48712; 32; 54624; 51068; 32; 47785;
                 47197]%N
                ([52376; 47532; 32; 51473; 32; 50724; 47448; 32; 48156; 49373;
                  58; 32]%N ++ str_of_exn e) created) as (H1 & H2 & H3).
    unfold error_list. auto.
Qed.

End Extras_Orchestrator.

(** X23. [MorganOrchestrator.__init__] succeeds only where the Slack token
    and both API keys are non-empty strings, and the orchestrator it
    builds has an empty pattern list, a fresh calculator and counters at
    zero. *)
Theorem MorganOrchestrator_init_pristine getenv self :
  MorganOrchestrator_init getenv = Ok self ->
  pristine self /\
  usable_key (getenv "SLACK_TOKEN"%string) <> None /\
  usable_key (getenv "OPENAI_API_KEY"%string) <> None /\
  usable_key (getenv "ANTHROPIC_API_KEY"%string) <> None /\
  usage_stats (ai_engine self) = stats_of 0 0 0.
Proof.
  unfold MorganOrchestrator_init, SlackClient_init, AIEngine_init,
    OpenAIClient_init, ClaudeClient_init, require_key, usable_key.
  destruct (getenv "SLACK_TOKEN"%string) as [[ | a1 k1] | ];
    cbn [bind]; try discriminate.
  destruct (getenv "OPENAI_API_KEY"%string) as [[ | a2 k2] | ];
    cbn [bind]; try discriminate.
  destruct (getenv "ANTHROPIC_API_KEY"%string) as [[ | a3 k3] | ];
    cbn [bind]; try discriminate.
  intros H. inversion H; subst; clear H.
  unfold pristine.
  cbn [morgan_user_patterns priority_calculator ai_engine usage_stats].
  repeat split; try discriminate. now exists 0, 0, 0.
Qed.

Lemma process_applies_no_pattern_witness :
  exists l,
    fst (process_slack_activities ascii_lower no_json strict_bool strict_float
           strict_int strict_str strict_str_list no_description no_strftime
           numbered_uuid first_seen no_exn_text example_orchestrator 1
           (Ok [question_message; long_message]) (fun _ => failing_world)
           (fun _ => tuesday_ten) tuesday_ten tuesday_ten 0)
      = Returns l /\
    Forall
      (fun t =>
         action_required (ai_analysis t) = true /\
         personal_weight_score (priority_score t) = 0.5%flt)
      (items l) /\
    by_score_descending (items l) /\
    (0 <= 1 -> len_list (items l) <= 1) /\
    pristine
      (snd (process_slack_activities ascii_lower no_json strict_bool
              strict_float strict_int strict_str strict_str_list no_description
              no_strftime numbered_uuid first_seen no_exn_text
              example_orchestrator 1 (Ok [question_message; long_message])
              (fun _ => failing_world) (fun _ => tuesday_ten) tuesday_ten
              tuesday_ten 0)).
Proof.
  apply (process_applies_no_pattern ascii_lower no_json strict_bool strict_float
           strict_int strict_str strict_str_list no_description no_strftime
           numbered_uuid first_seen no_exn_text example_orchestrator 1
           (Ok [question_message; long_message]) (fun _ => failing_world)
           (fun _ => tuesday_ten) tuesday_ten tuesday_ten 0).
  unfold pristine. repeat split. now exists 0, 0, 0.
Defined.

Lemma MorganOrchestrator_init_pristine_witness :
  exists self,
    MorganOrchestrator_init credentials_env = Ok self /\ pristine self.
Proof.
  eexists. split; [reflexivity | ].
  apply (MorganOrchestrator_init_pristine credentials_env _ eq_refl).
Defined.

Lemma action_time_follows_level_witness :
  exists p,
    fst (calculate_priority ascii_lower PriorityCalculator_init alice_message
           overshooting_analysis None tuesday_ten) = Ok p /\
    recommended_action_time p =
      label_of_level (priority_level p)
        (estimated_time_minutes overshooting_analysis).
Proof.
  apply (action_time_follows_level ascii_lower PriorityCalculator_init
           alice_message overshooting_analysis None tuesday_ten
           (reachable_init ascii_lower)).
Defined.

Lemma batch_is_map_witness :
  exists ps,
    fst (batch_calculate_priorities ascii_lower PriorityCalculator_init
           [(alice_message, plain_analysis); (long_message, overshooting_analysis)]
           (Some [alice_pattern 3]) (fun _ => tuesday_ten)) = Ok ps /\
    List.length ps = 2%nat.
Proof.
  destruct (batch_is_map ascii_lower PriorityCalculator_init
              [(alice_message, plain_analysis); (long_message, overshooting_analysis)]
              (Some [alice_pattern 3]) (fun _ => tuesday_ten)
              (reachable_init ascii_lower)) as (ps & Hps & Hlen & _).
  exists ps. split; [exact Hps | exact Hlen].
Defined.

(** ** What the calculator reads *)

(** X24. [calculate_priority] reads five fields of the message - channel
    name, username, text, timestamp, activity type - and six of the
    analysis; two calls that agree on these return the same score. The
    flags [mentions_me] and [is_bot] and the analysis's confidence have no
    effect on it. *)
Theorem calculate_priority_reads (lower : str -> str) self m m' a a' patterns now :
  same_scored_fields m m' ->
  same_scored_analysis a a' ->
  fst (calculate_priority lower self m a patterns now) =
  fst (calculate_priority lower self m' a' patterns now).
Proof.
  intros (Hc & Hu & Ht & Hs & Hk) (Hr & Hg & Hx & Hw & He & Hm).
  unfold calculate_priority. cbn [fst].
  unfold score_message, _calculate_sender_authority_score,
    _calculate_time_urgency_score, _calculate_content_importance_score,
    _apply_personal_patterns, _pattern_matches, _get_adjusted_weights,
    _suggest_action_time.
  rewrite Hc, Hu, Ht, Hs, Hk, Hr, Hg, Hx, Hw, He, Hm. reflexivity.
Qed.

Lemma calculate_priority_reads_witness :
  fst (calculate_priority ascii_lower PriorityCalculator_init alice_message
         plain_analysis (Some [alice_pattern 3]) tuesday_ten) =
  fst (calculate_priority ascii_lower PriorityCalculator_init alice_bot_message
         unsure_analysis (Some [alice_pattern 3]) tuesday_ten).
Proof.
  apply (calculate_priority_reads ascii_lower PriorityCalculator_init
           alice_message alice_bot_message plain_analysis unsure_analysis
           (Some [alice_pattern 3]) tuesday_ten);
    repeat split.
Defined.

(** ** Collected activities hold no duplicate *)

Lemma key_eqb_eq (a b : str * str) : key_eqb a b = true <-> a = b.
Proof.
  destruct a as [a1 a2], b as [b1 b2]. unfold key_eqb. cbn [fst snd].
  rewrite andb_true_iff, !str_eqb_eq.
  split; [intros [-> ->]; reflexivity | intros H; inversion H; auto].
Qed.

Lemma seen_spec (key : str * str) (seen : list (str * str)) :
  existsb (key_eqb key) seen = true <-> In key seen.
Proof.
  rewrite existsb_exists. split.
  - intros (k & Hin & Heq). apply key_eqb_eq in Heq. now subst.
  - intros Hin. exists key. split; [exact Hin | now apply key_eqb_eq].
Qed.

Lemma unique_loop_spec activities : forall seen unique,
  map key_of unique = seen ->
  NoDup seen ->
  NoDup (map key_of (unique_loop activities seen unique)) /\
  (forall a, In a unique \/ In a activities ->
     exists b, In b (unique_loop activities seen unique) /\ key_of b = key_of a) /\
  (forall b, In b (unique_loop activities seen unique) ->
     In b unique \/ In b activities).
Proof.
  induction activities as [ | activity rest IH]; intros seen unique Hkeys Hnodup;
    cbn [unique_loop].
  - rewrite Hkeys. split; [exact Hnodup | ]. split.
    + intros a [Ha | []]. now exists a.
    + auto.
  - destruct (existsb (key_eqb (key_of activity)) seen) eqn:Hseen.
    + apply seen_spec in Hseen.
      destruct (IH seen unique Hkeys Hnodup) as (H1 & H2 & H3).
      split; [exact H1 | ]. split.
      * intros a [Ha | [<- | Ha]]; auto.
        rewrite <- Hkeys in Hseen. apply in_map_iff in Hseen.
        destruct Hseen as (u & Hu & Hin).
        destruct (H2 u (or_introl Hin)) as (b & Hb & Hkb).
        exists b. split; [exact Hb | congruence].
      * intros b Hb. destruct (H3 b Hb); cbn [In]; auto.
    + assert (Hnew : ~ In (key_of activity) seen).
      { intros Hin. apply seen_spec in Hin. congruence. }
      destruct (IH (seen ++ [key_of activity]) (unique ++ [activity]))
        as (H1 & H2 & H3).
      * rewrite map_app, Hkeys. reflexivity.
      * apply NoDup_app; [exact Hnodup | repeat constructor; auto | ].
        intros k Hk [<- | []]. contradiction.
      * split; [exact H1 | ]. split.
        -- intros a [Ha | [<- | Ha]]; apply H2; rewrite ?in_app_iff;
             cbn [In]; auto.
        -- intros b Hb. destruct (H3 b Hb) as [Hin | Hin]; cbn [In]; auto.
           apply in_app_iff in Hin. destruct Hin as [Hin | [<- | []]]; auto.
Qed.

Lemma fold_fetched results : forall acc,
  fold_left
    (fun activities result =>
       match result with
       | Ok found => activities ++ found
       | Raise _ => activities
       end)
    results acc = acc ++ fetched results.
Proof.
  induction results as [ | [found | e] results IH]; intros acc;
    cbn [fold_left fetched flat_map].
  - now rewrite app_nil_r.
  - rewrite IH, <- app_assoc. reflexivity.
  - rewrite IH. reflexivity.
Qed.

(** X25. Once the client has its user id, [collect_all_activities]
    returns, even when some fetch raised. No two of the activities it
    returns share both message id and channel id; each is one that a
    fetch returned; and every fetched activity has its pair of ids among
    them. *)
Theorem collect_all_activities_unique self auth results :
  (exists c id, slack_user_id self = Some (c :: id)) \/ (exists id, auth = Ok id) ->
  exists unique,
    fst (collect_all_activities self auth results) = Ok unique /\
    NoDup (map key_of unique) /\
    (forall b, In b unique -> In b (fetched results)) /\
    (forall a, In a (fetched results) ->
       exists b, In b unique /\ key_of b = key_of a).
Proof.
  intros Hid. unfold collect_all_activities.
  assert (Hinit : exists client,
            match slack_user_id self with
            | Some (c :: id) => Ok self
            | _ =>
                user_id <- auth ;;
                Ok {| slack_token := slack_token self;
                      slack_user_id := Some user_id |}
            end = Ok client).
  { destruct Hid as [(c & id & ->) | [id ->]]; [now exists self | ].
    destruct (slack_user_id self) as [[ | c id'] | ]; eexists; reflexivity. }
  destruct Hinit as [client ->]. cbn [fst].
  rewrite (fold_fetched results []). cbn [app].
  destruct (unique_loop_spec (fetched results) [] [] eq_refl (NoDup_nil _))
    as (H1 & H2 & H3).
  eexists. split; [reflexivity | ]. split; [exact H1 | ]. split.
  - intros b Hb. destruct (H3 b Hb) as [[] | Hin]. exact Hin.
  - intros a Ha. apply H2. now right.
Qed.

Lemma collect_all_activities_unique_witness :
  exists unique,
    fst (collect_all_activities
           {| slack_token := lit "xoxb-test"; slack_user_id := None |}
           (Ok (lit "U1"))
           [Ok [alice_message; long_message]; Raise ProviderError;
            Ok [alice_message]]) = Ok unique /\
    NoDup (map key_of unique).
Proof.
  destruct (collect_all_activities_unique
              {| slack_token := lit "xoxb-test"; slack_user_id := None |}
              (Ok (lit "U1"))
              [Ok [alice_message; long_message]; Raise ProviderError;
               Ok [alice_message]]) as (unique & Hu & Hn & _).
  - right. now exists (lit "U1").
  - exists unique. split; [exact Hu | exact Hn].
Defined.
